(** * covid19-vis: the dataframe pipeline of [CovidChart._preprocess_df]

    A shallow embedding of [src/chartlib/covid_chart.py].  A pandas DataFrame
    is a list of records (one record per row, one field per column).  The
    index of the input frame is taken to hold distinct labels; the index of a
    frame freshly produced by [merge] is the row position.  Float columns
    (the measure, [y], [intercept], [lockdown_y], [lockdown_slope]) are IEEE
    binary64 values ([PrimFloat.float]), so a missing value is [nan] exactly
    as pandas stores it; dates are day numbers; integer day offsets that
    pandas turns nullable after a left join or an append are [option Z].
    A function that can raise returns an [option], [None] standing for the
    exception.  The constructor and the configuration methods act on a
    record [Chart]; the constructor answers with the chart or with the
    message of the [ValueError] it raises. *)

From Stdlib Require Import ZArith List Bool String Lia Floats.
From Stdlib Require Import Sorted Permutation OrdersEx RelationClasses.
Import ListNotations.

Local Open Scope float_scope.
Local Open Scope list_scope.

(** ** Tables *)

(** A row of the input frame [self.df]: the grouping column, the date column
    [xcol] (a day number) and the measure column [ycol]. *)
Module Obs.
Record t := mk { group : string; date : Z; measure : float }.
End Obs.

(** The same row once the column [y] has been added. *)
Module Series.
Record t := mk { group : string; date : Z; measure : float; y : float }.
Definition set_y (v : float) (r : t) : t := mk (group r) (date r) (measure r) v.
End Series.

(** A row after [start_criterion.transform]: the offset [x] and the per-group
    anchor [date_of_N] have been added. *)
Module Aligned.
Record t := mk { group : string; date : Z; measure : float; y : float;
                 x : Z; date_of_N : Z }.
End Aligned.

(** ** numpy and pandas primitives on columns *)

(** [Series.unique]: distinct values in order of first appearance. *)
Fixpoint unique (l : list string) : list string :=
  match l with
  | [] => []
  | a :: t => a :: filter (fun b => negb (String.eqb b a)) (unique t)
  end.

(** [np.cumsum] on a float array: left-to-right accumulation. *)
Fixpoint np_cumsum_from (acc : float) (l : list float) : list float :=
  match l with
  | [] => []
  | v :: t => let acc' := acc + v in acc' :: np_cumsum_from acc' t
  end.

Definition np_cumsum (l : list float) : list float :=
  match l with
  | [] => []
  | v :: t => v :: np_cumsum_from v t
  end.

(** [Series.cumsum] (skipna): missing entries are summed as 0 and come out
    missing. *)
Definition cumsum (l : list float) : list float :=
  map (fun p : float * float => if is_nan (fst p) then nan else snd p)
      (combine l (np_cumsum (map (fun v => if is_nan v then 0 else v) l))).

(** [df.loc[pred, 'y'] = vals]: the rows selected by [pred] receive the
    values of [vals] in order. *)
Fixpoint loc_assign_y (pred : Series.t -> bool) (vals : list float)
         (df : list Series.t) : list Series.t :=
  match df with
  | [] => []
  | r :: df' =>
      if pred r then
        match vals with
        | v :: vals' => Series.set_y v r :: loc_assign_y pred vals' df'
        | [] => r :: loc_assign_y pred [] df'
        end
      else r :: loc_assign_y pred vals df'
  end.

(** Insertion of a key into a list sorted by [String.leb]; [groupby] sorts
    its group keys. *)
Fixpoint insert_key (k : string) (l : list string) : list string :=
  match l with
  | [] => [k]
  | h :: t => if String.leb k h then k :: l else h :: insert_key k t
  end.

Definition sort_keys (l : list string) : list string :=
  fold_right insert_key [] l.

(** The group keys of [df.groupby(col)]: distinct values, sorted. *)
Definition group_keys (col : list string) : list string :=
  sort_keys (unique col).

(** [Series.notna] on a float. *)
Definition notna (v : float) : bool := negb (is_nan v).

(** [GroupBy.max] on a float column: the largest non-missing value of the
    group, missing when the group has none. *)
Definition float_max (vals : list float) : float :=
  match filter notna vals with
  | [] => nan
  | vs => fold_left (fun m v => if m <? v then v else m) vs neg_infinity
  end.

(** [Series.nlargest(n)] with [keep='first'] on a series given as
    (index, value) pairs.  For [n <= 0] the result is empty.  Otherwise the
    entries with a value are ordered by descending value, earlier entries
    first among equal values; the entries with a missing value follow them
    in their order; the first [n] of that are kept.  (When [n] is at least
    the length of the series pandas returns the whole series sorted with the
    missing values last; line 78 reads the result only through [isin].) *)
Fixpoint insert_desc (kv : string * float) (l : list (string * float))
  : list (string * float) :=
  match l with
  | [] => [kv]
  | h :: t => if snd kv <? snd h then h :: insert_desc kv t else kv :: l
  end.

Definition sort_desc (l : list (string * float)) : list (string * float) :=
  fold_right insert_desc [] l.

Definition nlargest (n : Z) (s : list (string * float)) : list (string * float) :=
  if (n <=? 0)%Z then []
  else firstn (Z.to_nat n)
         (sort_desc (filter (fun kv => notna (snd kv)) s)
          ++ filter (fun kv => is_nan (snd kv)) s).

Definition isin (g : string) (l : list string) : bool :=
  existsb (String.eqb g) l.

(** ** Series normalizer: lines 68-78 of [_preprocess_df] *)

(** Lines 73-74 for one group: the rows of the group receive the cumulative
    sum of their measures, taken in row order. *)
Definition cumulate_group (d : list Series.t) (g : string) : list Series.t :=
  let pred := fun r => String.eqb (Series.group r) g in
  loc_assign_y pred (cumsum (map Series.measure (filter pred d))) d.

(** Lines 72-74: the loop over [df[groupcol].unique()]. *)
Definition cumulate (df : list Series.t) : list Series.t :=
  fold_left cumulate_group (unique (map Series.group df)) df.

(** Lines 68-74. *)
Definition add_y (ycol_is_cumulative : bool) (df : list Obs.t) : list Series.t :=
  if ycol_is_cumulative then
    map (fun o => Series.mk (Obs.group o) (Obs.date o) (Obs.measure o) (Obs.measure o)) df
  else
    cumulate (map (fun o => Series.mk (Obs.group o) (Obs.date o) (Obs.measure o) 0) df).

(** Line 77, [df.groupby(groupcol)['y'].max()], at one group. *)
Definition group_max (df : list Series.t) (g : string) : float :=
  float_max (map Series.y (filter (fun r => String.eqb (Series.group r) g) df)).

(** The series of line 77, indexed by the sorted group keys. *)
Definition groupby_max (df : list Series.t) : list (string * float) :=
  map (fun g => (g, group_max df g)) (group_keys (map Series.group df)).

(** Line 77: the index of [nlargest(top_k_groups)]. *)
Definition top_groups (k : Z) (df : list Series.t) : list string :=
  map fst (nlargest k (groupby_max df)).

(** Lines 76-78. *)
Definition select_top_k (top_k_groups : option Z) (df : list Series.t)
  : list Series.t :=
  match top_k_groups with
  | None => df
  | Some k => filter (fun r => isin (Series.group r) (top_groups k df)) df
  end.

(** Lines 67-78. *)
Definition normalize (ycol_is_cumulative : bool) (top_k_groups : option Z)
           (df : list Obs.t) : list Series.t :=
  select_top_k top_k_groups (add_y ycol_is_cumulative df).

(** ** Intervention records *)

(** A row of [self.quarantine_df] as supplied: the three columns that the
    constructor requires and the pipeline reads, any of which may be
    missing, and whether some other column of the row holds a missing value,
    which is all that line 83 reads of the other columns. *)
Module Event.
Record t := mk { group : option string; lockdown_date : option Z;
                 lockdown_type : option string; other_missing : bool }.
End Event.

(** A row of [quarantine_df] after [dropna], the inner merge with
    [df[[groupcol, 'date_of_N']]] and the computation of [lockdown_x]
    (lines 83-87). *)
Module Lockdown.
Record t := mk { group : string; lockdown_date : Z; lockdown_type : string;
                 date_of_N : Z; lockdown_x : Z }.
End Lockdown.

(** A row of [df] after the left merge of line 93. *)
Module Merged.
Record t := mk { base : Aligned.t; lockdown_date : option Z;
                 lockdown_type : option string; lockdown_x : option Z }.
Definition group (r : t) : string := Aligned.group (base r).
Definition x (r : t) : Z := Aligned.x (base r).
Definition y (r : t) : float := Aligned.y (base r).
End Merged.

(** A row of the frame returned by [_preprocess_df].  Rows appended at line
    118 carry only [group], [lockdown_x], [lockdown_type] and [x]; pandas fills
    every other column with a missing value, hence the nullable fields. *)
Module Joined.
Record t := mk { group : string; date : option Z; measure : float; y : float;
                 x : option Z; date_of_N : option Z;
                 lockdown_date : option Z; lockdown_type : option string;
                 lockdown_x : option Z;
                 intercept : float; lockdown_y : float;
                 lockdown_slope : float }.
End Joined.

(** ** Frames with an index *)

Section Frames.
Context {A : Type}.

(** The [RangeIndex] of a frame produced by [merge]. *)
Definition range_index (l : list A) : list (nat * A) :=
  combine (seq 0 (List.length l)) l.

(** [df.loc[mask]]: the selected rows keep their labels. *)
Definition loc_mask (p : A -> bool) (f : list (nat * A)) : list (nat * A) :=
  filter (fun ir => p (snd ir)) f.

(** [df.loc[labels]]. *)
Definition loc (labels : list nat) (f : list (nat * A)) : list A :=
  flat_map (fun i => map snd (filter (fun ir => Nat.eqb (fst ir) i) f)) labels.

Variable grp : A -> string.
Variable val : A -> Z.

Definition rows_of (g : string) (f : list (nat * A)) : list (nat * A) :=
  filter (fun ir => String.eqb (grp (snd ir)) g) f.

Definition first_min (b : nat * A) (l : list (nat * A)) : nat * A :=
  fold_left (fun b ir => if (val (snd ir) <? val (snd b))%Z then ir else b) l b.

Definition first_max (b : nat * A) (l : list (nat * A)) : nat * A :=
  fold_left (fun b ir => if (val (snd b) <? val (snd ir))%Z then ir else b) l b.

(** [f.groupby(grp).val.idxmin()]: for every group key, in sorted order,
    the label of the first row of the group that attains the least value. *)
Definition idxmin (f : list (nat * A)) : list nat :=
  flat_map (fun g => match rows_of g f with
                     | [] => []
                     | b :: t => [fst (first_min b t)]
                     end)
           (group_keys (map (fun ir => grp (snd ir)) f)).

(** [f.groupby(grp).val.idxmax()]. *)
Definition idxmax (f : list (nat * A)) : list nat :=
  flat_map (fun g => match rows_of g f with
                     | [] => []
                     | b :: t => [fst (first_max b t)]
                     end)
           (group_keys (map (fun ir => grp (snd ir)) f)).
End Frames.

(** [left.merge(right, on=key, how='inner')] and [how='left']: every left row,
    in order, is paired with each right row of the same key; a left row
    without a match is dropped ([inner]) or kept once with missing right
    columns ([left]). *)
Section Merge.
Context {A B C : Type}.
Variable key_l : A -> string.
Variable key_r : B -> string.

Definition matches (a : A) (r : list B) : list B :=
  filter (fun b => String.eqb (key_r b) (key_l a)) r.

Definition merge_inner (pair : A -> B -> C) (l : list A) (r : list B) : list C :=
  flat_map (fun a => map (pair a) (matches a r)) l.

Definition merge_left (pair : A -> option B -> C) (l : list A) (r : list B)
  : list C :=
  flat_map (fun a => match matches a r with
                     | [] => [pair a None]
                     | ms => map (fun b => pair a (Some b)) ms
                     end) l.
End Merge.

(** ** numpy's elementwise functions *)

(** The conversion of an integer column to float64. *)
Definition of_Z (z : Z) : float := SF2Prim (binary_normalize prec emax z 0 false).

Definition of_optZ (o : option Z) : float :=
  match o with Some z => of_Z z | None => nan end.

(** [np.log] and [np.exp].  IEEE 754 fixes their values at the special
    arguments; elsewhere the value is whatever the platform's math library
    returns, which is left as a parameter. *)
Section Libm.
Variables libm_log libm_exp : float -> float.

Definition np_log (v : float) : float :=
  if is_nan v then nan
  else if v <? 0 then nan
  else if v =? 0 then neg_infinity
  else if v =? infinity then infinity
  else if v =? 1 then 0
  else libm_log v.

Definition np_exp (v : float) : float :=
  if is_nan v then nan
  else if v =? neg_infinity then 0
  else if v =? infinity then infinity
  else if v =? 0 then 1
  else libm_exp v.

(** Line 108. *)
Definition slope (lockdown_y intercept : float) (lockdown_x : option Z) : float :=
  np_exp (np_log (lockdown_y / intercept) / of_optZ lockdown_x).
End Libm.

(** ** The chart and its configuration *)

(** The part of [ChartSpec] read by [_preprocess_df]: a key absent from the
    spec is [None]. *)
Record ChartSpec := { xdomain : option (Z * Z); ydomain : option (float * float) }.

(** The state of a [CovidChart] read by [_preprocess_df].  The start
    criterion is the strategy object handed to the constructor; its
    [transform] maps the normalized frame to the aligned one. *)
Record CovidChart := {
  df : list Obs.t;
  quarantine_df : option (list Event.t);
  start_criterion : list Series.t -> list Aligned.t;
  ycol_is_cumulative : bool;
  top_k_groups : option Z;
  spec : ChartSpec }.

(** An intervention record with no missing value in any column. *)
Module Intervention.
Record t := mk { group : string; lockdown_date : Z; lockdown_type : string }.
End Intervention.

(** Line 83: [quarantine_df.dropna()], called without [subset], drops every
    row that has a missing value in any column. *)
Definition dropna (q : list Event.t) : list Intervention.t :=
  flat_map (fun e =>
              match Event.group e, Event.lockdown_date e, Event.lockdown_type e,
                    Event.other_missing e with
              | Some g, Some d, Some t, false => [Intervention.mk g d t]
              | _, _, _, _ => []
              end) q.

Definition le_opt (a : Z) (b : option Z) : bool :=
  match b with Some b => (a <=? b)%Z | None => false end.

Definition first_notna (vals : list float) : float :=
  match filter notna vals with
  | [] => nan
  | v :: _ => v
  end.

(** [GroupBy.max] on a nullable integer column and on a nullable string
    column: missing entries are skipped. *)
Definition max_optZ (l : list (option Z)) : option Z :=
  fold_left (fun m v => match m, v with
                        | None, _ => v
                        | _, None => m
                        | Some a, Some b => Some (Z.max a b)
                        end) l None.

Definition max_optstring (l : list (option string)) : option string :=
  fold_left (fun m v => match m, v with
                        | None, _ => v
                        | _, None => m
                        | Some a, Some b => Some (if String.ltb a b then b else a)
                        end) l None.

(** ** Intervention join, extrapolation and clipping: lines 81-126 *)

Section Pipeline.
(** The math library behind numpy and [utils.days_between], whose module is
    not part of the sources at hand. *)
Variables libm_log libm_exp : float -> float.
Variable days_between : Z -> Z -> Z.

(** Lines 84-87 on a merge result that has rows: every intervention record
    paired with the anchor of each row of its group, and its offset. *)
Definition lockdown_rows (q : list Intervention.t) (d : list Aligned.t)
  : list Lockdown.t :=
  merge_inner Intervention.group Aligned.group
    (fun e r => Lockdown.mk (Intervention.group e) (Intervention.lockdown_date e)
                  (Intervention.lockdown_type e) (Aligned.date_of_N r)
                  (days_between (Aligned.date_of_N r) (Intervention.lockdown_date e)))
    q d.

(** Lines 84-87.  When the merge result has no row, [apply(..., axis=1)]
    returns the empty frame itself, and line 87, which assigns that frame of
    several columns to the single column [lockdown_x], raises [ValueError]:
    [None]. *)
Definition with_lockdown_x (q : list Intervention.t) (d : list Aligned.t)
  : option (list Lockdown.t) :=
  match lockdown_rows q d with
  | [] => None
  | l => Some l
  end.

(** Lines 90-91. *)
Definition earliest_lockdowns (q : list Lockdown.t) : list Lockdown.t :=
  let f := loc_mask (fun e => (0 <? Lockdown.lockdown_x e)%Z) (range_index q) in
  loc (idxmin Lockdown.group Lockdown.lockdown_x f) f.

(** Lines 82-92: the intervention table that is joined onto [df]. *)
Definition retained_lockdowns (q : list Event.t) (d : list Aligned.t)
  : option (list Lockdown.t) :=
  option_map earliest_lockdowns (with_lockdown_x (dropna q) d).

(** Line 93. *)
Definition merge_lockdowns (d : list Aligned.t) (q : list Lockdown.t)
  : list Merged.t :=
  merge_left Aligned.group Lockdown.group
    (fun r e => match e with
                | Some e => Merged.mk r (Some (Lockdown.lockdown_date e))
                              (Some (Lockdown.lockdown_type e))
                              (Some (Lockdown.lockdown_x e))
                | None => Merged.mk r None None None
                end) d q.

(** Lines 95-96. *)
Definition df_lockdown_y (d : list Merged.t) : list Merged.t :=
  let f := range_index d in
  loc (idxmax Merged.group Merged.x
         (loc_mask (fun r => le_opt (Merged.x r) (Merged.lockdown_x r)) f)) f.

(** Line 97: [groupby(...).first()] takes, per group, the first non-missing
    value of each column. *)
Definition df_intercept (d : list Merged.t) : list (string * float) :=
  let d0 := filter (fun r => (Merged.x r =? 0)%Z) d in
  map (fun g => (g, first_notna
                      (map Merged.y
                         (filter (fun r => String.eqb (Merged.group r) g) d0))))
      (group_keys (map Merged.group d0)).

(** Lines 98-102. *)
Definition add_intercept (d : list Merged.t) (i : list (string * float))
  : list (Merged.t * float) :=
  merge_left Merged.group fst
    (fun r i => (r, match i with Some i => snd i | None => nan end)) d i.

(** Lines 103-107. *)
Definition add_lockdown_y (d : list (Merged.t * float)) (l : list Merged.t)
  : list (Merged.t * float * float) :=
  merge_left (fun p => Merged.group (fst p)) Merged.group
    (fun p l => (p, match l with Some l => Merged.y l | None => nan end)) d l.

(** Line 108. *)
Definition add_slope (p : Merged.t * float * float) : Joined.t :=
  let '(r, intercept, lockdown_y) := p in
  let b := Merged.base r in
  Joined.mk (Aligned.group b) (Some (Aligned.date b)) (Aligned.measure b)
    (Aligned.y b) (Some (Aligned.x b)) (Some (Aligned.date_of_N b))
    (Merged.lockdown_date r) (Merged.lockdown_type r) (Merged.lockdown_x r)
    intercept lockdown_y
    (slope libm_log libm_exp lockdown_y intercept (Merged.lockdown_x r)).

(** Lines 93-108, given the table of line 91. *)
Definition join_lockdowns (R : list Lockdown.t) (d : list Aligned.t)
  : list Joined.t :=
  let m := merge_lockdowns d R in
  map add_slope (add_lockdown_y (add_intercept m (df_intercept m)) (df_lockdown_y m)).

(** Lines 82-108. *)
Definition join_interventions (q : list Event.t) (d : list Aligned.t)
  : option (list Joined.t) :=
  option_map (fun R => join_lockdowns R d) (retained_lockdowns q d).

(** Lines 116-117: one row per group, holding the group key, the group's
    largest [lockdown_x] and [lockdown_type], and [x] set to [lockdown_x]. *)
Definition new_rows (d : list Joined.t) : list Joined.t :=
  map (fun g =>
         let rows := filter (fun r => String.eqb (Joined.group r) g) d in
         let lx := max_optZ (map Joined.lockdown_x rows) in
         Joined.mk g None nan nan lx None None
           (max_optstring (map Joined.lockdown_type rows)) lx nan nan nan)
      (group_keys (map Joined.group d)).

(** Line 118. *)
Definition append_new_rows (d : list Joined.t) : list Joined.t :=
  d ++ new_rows d.

(** The frame when no intervention table is given: the lockdown columns do
    not exist, which the record renders as missing values. *)
Definition of_aligned (b : Aligned.t) : Joined.t :=
  Joined.mk (Aligned.group b) (Some (Aligned.date b)) (Aligned.measure b)
    (Aligned.y b) (Some (Aligned.x b)) (Some (Aligned.date_of_N b))
    None None None nan nan nan.

(** Lines 120-125. *)
Definition in_xdomain (s : ChartSpec) (r : Joined.t) : bool :=
  match xdomain s with
  | None => true
  | Some (xmin, xmax) =>
      match Joined.x r with
      | Some v => (xmin <=? v)%Z && (v <=? xmax)%Z
      | None => false
      end
  end.

Definition in_ydomain (s : ChartSpec) (r : Joined.t) : bool :=
  match ydomain s with
  | None => true
  | Some (ymin, ymax) => (ymin <=? Joined.y r) && (Joined.y r <=? ymax)
  end.

Definition clip (s : ChartSpec) (d : list Joined.t) : list Joined.t :=
  filter (in_ydomain s) (filter (in_xdomain s) d).

(** Lines 81-118. *)
Definition interventions (q : option (list Event.t)) (d : list Aligned.t)
  : option (list Joined.t) :=
  match q with
  | None => Some (map of_aligned d)
  | Some q => option_map append_new_rows (join_interventions q d)
  end.

(** Lines 67-80: the frame handed to the intervention join. *)
Definition aligned (c : CovidChart) : list Aligned.t :=
  start_criterion c (normalize (ycol_is_cumulative c) (top_k_groups c) (df c)).

(** [CovidChart._preprocess_df]: the returned frame, or [None] when line 87
    raises. *)
Definition preprocess_df (c : CovidChart) : option (list Joined.t) :=
  option_map (clip (spec c)) (interventions (quarantine_df c) (aligned c)).
End Pipeline.

(** ** Collaborators outside the sources at hand *)

(** Modelled from the spec: [utils.days_between] is imported by
    [covid_chart.py] but its module is not among the sources.  The spec calls
    it an integer day difference and makes
    [days_between(date_of_N, intervention_date)] positive exactly when the
    intervention comes after the anchor date. *)
Definition days_between_spec (d1 d2 : Z) : Z := (d2 - d1)%Z.

(** Modelled from the spec: the strategy
    [DaysSinceThresholdReached(threshold, measure)] of [start_criterion], not
    among the sources.  The anchor of a group is the date of its first row
    whose cumulative measure reaches the threshold; every row of the group
    gets [x], its date minus the anchor; a group that never reaches the
    threshold is dropped. *)
Definition days_since_num_reached (threshold : float) (d : list Series.t)
  : list Aligned.t :=
  flat_map (fun r =>
              match find (fun a => String.eqb (Series.group a) (Series.group r)
                                   && (threshold <=? Series.y a)) d with
              | Some a =>
                  [Aligned.mk (Series.group r) (Series.date r) (Series.measure r)
                     (Series.y r) (Series.date r - Series.date a) (Series.date a)]
              | None => []
              end) d.

(** ** Constructor and configuration methods: lines 24-64 and 140-249 *)

(** Values that the configuration methods store in the chart spec: [None],
    booleans, strings and numbers. *)
Inductive py := PyNone | PyBool (b : bool) | PyStr (s : string) | PyNum (z : Z).

(** The chart spec is an instance of [ChartSpec], a class imported from a
    module that is not part of the sources at hand.  The sources use it as a
    dict whose keys are its attributes: line 120 asks ['xdomain' in self.spec]
    after [set_xdomain] has assigned [self.spec.xdomain], and
    [build-charts.py] calls [chart.spec.update].  Its entries other than the
    two domains are kept here in insertion order; assigning an attribute
    replaces the entry of that name or adds one at the end. *)
Fixpoint setattr (k : string) (v : py) (s : list (string * py))
  : list (string * py) :=
  match s with
  | [] => [(k, v)]
  | kv :: t => if String.eqb (fst kv) k then (k, v) :: t else kv :: setattr k v t
  end.

Definition getattr (k : string) (s : list (string * py)) : option py :=
  option_map snd (find (fun kv => String.eqb (fst kv) k) s).

(** A table as the constructor sees it: its column names, which are all
    that lines 38-49 look at, and its rows, which the constructor stores. *)
Record Frame (A : Type) := { columns : list string; rows : list A }.
Arguments columns {A} _.
Arguments rows {A} _.

(** A [CovidChart] object: the state that [_preprocess_df] reads (with the
    two domains of the chart spec), the column names kept by the constructor
    and the other entries of the chart spec. *)
Record Chart := {
  state : CovidChart;
  groupcol : string;
  xcol : string;
  ycol : string;
  attrs : list (string * py) }.

Definition set_attr (k : string) (v : py) (c : Chart) : Chart :=
  {| state := state c; groupcol := groupcol c; xcol := xcol c; ycol := ycol c;
     attrs := setattr k v (attrs c) |}.

Definition with_spec (s : ChartSpec) (c : Chart) : Chart :=
  {| state := {| df := df (state c); quarantine_df := quarantine_df (state c);
                 start_criterion := start_criterion (state c);
                 ycol_is_cumulative := ycol_is_cumulative (state c);
                 top_k_groups := top_k_groups (state c); spec := s |};
     groupcol := groupcol c; xcol := xcol c; ycol := ycol c; attrs := attrs c |}.

(** Lines 140-229. *)
Definition set_title (title : py) : Chart -> Chart := set_attr "title" title.
Definition set_logscale : Chart -> Chart := set_attr "yscale" (PyStr "log").
Definition set_xdomain (limits : Z * Z) (c : Chart) : Chart :=
  with_spec {| xdomain := Some limits; ydomain := ydomain (spec (state c)) |} c.
Definition set_ydomain (limits : float * float) (c : Chart) : Chart :=
  with_spec {| xdomain := xdomain (spec (state c)); ydomain := Some limits |} c.
Definition set_xtitle (xtitle : py) : Chart -> Chart := set_attr "xtitle" xtitle.
Definition set_ytitle (ytitle : py) : Chart -> Chart := set_attr "ytitle" ytitle.
Definition add_lines : Chart -> Chart := set_attr "lines" (PyBool true).
Definition add_points : Chart -> Chart := set_attr "points" (PyBool true).
Definition set_click_selection : Chart -> Chart :=
  set_attr "click_selection" (PyBool true).
Definition set_legend_selection : Chart -> Chart :=
  set_attr "legend_selection" (PyBool true).
Definition add_tooltip_text (c : Chart) : Chart :=
  set_attr "tooltip_text" (PyBool true) (set_attr "has_tooltips" (PyBool true) c).
Definition add_tooltip_points (c : Chart) : Chart :=
  set_attr "tooltip_points" (PyBool true) (set_attr "has_tooltips" (PyBool true) c).
Definition add_tooltip_rules (c : Chart) : Chart :=
  set_attr "tooltip_rules" (PyBool true) (set_attr "has_tooltips" (PyBool true) c).
Definition add_lockdown_rules (c : Chart) : Chart :=
  set_attr "lockdown_rules" (PyBool true) (set_attr "has_tooltips" (PyBool true) c).
Definition set_height (height : py) : Chart -> Chart := set_attr "height" height.
Definition set_width (width : py) : Chart -> Chart := set_attr "width" width.
Definition add_all_tooltips (c : Chart) : Chart :=
  add_tooltip_rules (add_tooltip_text (add_tooltip_points c)).
Definition add_lockdown_extrapolation : Chart -> Chart :=
  set_attr "lockdown_extrapolation" (PyBool true).
Definition set_interactive (interactive : py) : Chart -> Chart :=
  set_attr "interactive" interactive.
Definition colorby (col : py) : Chart -> Chart := set_attr "colorby" col.
Definition facetby (col : py) : Chart -> Chart := set_attr "facetby" col.
Definition set_point_size (point_size : py) : Chart -> Chart :=
  set_attr "point_size" point_size.

(** What the constructor answers: a chart, or the message of the
    [ValueError] it raises. *)
Inductive outcome := Built (c : Chart) | Raised (msg : string).

Section Configuration.
(** The class [ChartSpec] is imported from a module that is not part of the
    sources at hand: its three default sizes and the content of a new
    instance are left open. *)
Variables DEFAULT_POINT_SIZE DEFAULT_WIDTH DEFAULT_HEIGHT : py.
Variable new_spec : ChartSpec.
Variable new_attrs : list (string * py).

(** Lines 231-249. *)
Definition set_defaults (c : Chart) : Chart :=
  let c1 := set_attr "point_size" DEFAULT_POINT_SIZE
              (set_attr "colorby" (PyStr (groupcol c))
                 (set_attr "detailby" (PyStr (groupcol c)) c)) in
  let ret :=
    set_height DEFAULT_HEIGHT
      (set_width DEFAULT_WIDTH
         (set_interactive (PyBool false)
            (add_lockdown_extrapolation
               (add_all_tooltips
                  (set_legend_selection
                     (set_click_selection
                        (set_logscale (add_points (add_lines c1))))))))) in
  match quarantine_df (state c) with
  | Some _ => add_lockdown_rules ret
  | None => ret
  end.

(** Lines 24-64, for [df] given as a table (a file name is first read with
    [pd.read_csv], line 37): the checks of lines 38-49 in their order, then
    the assignments of lines 51-64. *)
Definition init (df : Frame Obs.t) (groupcol : string)
           (start_criterion : list Series.t -> list Aligned.t) (ycol : string)
           (use_defaults ycol_is_cumulative : bool) (top_k_groups : option Z)
           (xcol : string) (quarantine_df : option (Frame Event.t)) : outcome :=
  if negb (isin groupcol (columns df)) then
    Raised "grouping col should be in dataframe cols"
  else if negb (isin ycol (columns df)) then
    Raised "measure col should be in dataframe cols"
  else
    let built :=
      let c := {| state := {| df := rows df;
                              quarantine_df := option_map rows quarantine_df;
                              start_criterion := start_criterion;
                              ycol_is_cumulative := ycol_is_cumulative;
                              top_k_groups := top_k_groups;
                              spec := new_spec |};
                  groupcol := groupcol; xcol := xcol; ycol := ycol;
                  attrs := setattr "facetby" PyNone
                             (setattr "colorby" (PyStr groupcol)
                                (setattr "detailby" (PyStr groupcol) new_attrs)) |} in
      Built (if use_defaults then set_defaults c else c) in
    match quarantine_df with
    | None => built
    | Some q =>
        if negb (isin groupcol (columns q)) then
          Raised "grouping col should be in dataframe cols"
        else if negb (isin "lockdown_date" (columns q)) then
          Raised "lockdown_date should be in quarantine_df columns"
        else if negb (isin "lockdown_type" (columns q)) then
          Raised "lockdown_type should be in quarantine_df columns"
        else built
    end.
End Configuration.

(** * Notions used in the statements *)

(** The row selected for a group by [idxmin] (resp. [idxmax]). *)
Definition group_min {A : Type} (grp : A -> string) (val : A -> Z)
           (f : list (nat * A)) (g : string) : list A :=
  match rows_of grp g f with
  | [] => []
  | b :: t => [snd (first_min val b t)]
  end.

Definition group_max_row {A : Type} (grp : A -> string) (val : A -> Z)
           (f : list (nat * A)) (g : string) : list A :=
  match rows_of grp g f with
  | [] => []
  | b :: t => [snd (first_max val b t)]
  end.

(** The right row of a given key, when there is one. *)
Definition lookup {B : Type} (key_r : B -> string) (g : string) (r : list B)
  : option B :=
  find (fun b => String.eqb (key_r b) g) r.

(** The candidate events of line 90: complete intervention records paired
    with an anchor of their group, whose offset is positive. *)
Definition qualifying (days_between : Z -> Z -> Z) (q : list Event.t)
           (d : list Aligned.t) : list Lockdown.t :=
  filter (fun e => (0 <? Lockdown.lockdown_x e)%Z)
         (lockdown_rows days_between (dropna q) d).

(** The table of line 91 and the frame of line 108 when line 87 does not
    raise. *)
Definition retained_rows (days_between : Z -> Z -> Z) (q : list Event.t)
           (d : list Aligned.t) : list Lockdown.t :=
  earliest_lockdowns (lockdown_rows days_between (dropna q) d).

Definition joined_rows (libm_log libm_exp : float -> float)
           (days_between : Z -> Z -> Z) (q : list Event.t) (d : list Aligned.t)
  : list Joined.t :=
  join_lockdowns libm_log libm_exp (retained_rows days_between q d) d.

(** The frame that [_preprocess_df] returns when line 87 does not raise. *)
Definition output_rows (libm_log libm_exp : float -> float)
           (days_between : Z -> Z -> Z) (c : CovidChart) : list Joined.t :=
  clip (spec c)
       (match quarantine_df c with
        | None => map of_aligned (aligned c)
        | Some q => append_new_rows
                      (joined_rows libm_log libm_exp days_between q (aligned c))
        end).

(** The row that line 93 produces from an aligned row. *)
Definition merged_row (R : list Lockdown.t) (r : Aligned.t) : Merged.t :=
  match lookup Lockdown.group (Aligned.group r) R with
  | Some e => Merged.mk r (Some (Lockdown.lockdown_date e))
                (Some (Lockdown.lockdown_type e)) (Some (Lockdown.lockdown_x e))
  | None => Merged.mk r None None None
  end.

Definition intercept_of (I : list (string * float)) (g : string) : float :=
  match lookup fst g I with Some i => snd i | None => nan end.

Definition lockdown_y_of (L : list Merged.t) (g : string) : float :=
  match lookup Merged.group g L with Some l => Merged.y l | None => nan end.

Definition joined_row (libm_log libm_exp : float -> float)
           (R : list Lockdown.t) (I : list (string * float))
           (L : list Merged.t) (r : Aligned.t) : Joined.t :=
  add_slope libm_log libm_exp
    (merged_row R r, intercept_of I (Aligned.group r), lockdown_y_of L (Aligned.group r)).

(** The three columns that line 93 joins onto a row, as read off the retained
    event of the row's group. *)
Definition event_x (o : option Lockdown.t) : option Z :=
  option_map Lockdown.lockdown_x o.
Definition event_type (o : option Lockdown.t) : option string :=
  option_map Lockdown.lockdown_type o.
Definition event_date (o : option Lockdown.t) : option Z :=
  option_map Lockdown.lockdown_date o.

(** A row lies within the configured closed interval; no condition when the
    domain is not configured. *)
Definition x_within (s : ChartSpec) (r : Joined.t) : Prop :=
  match xdomain s with
  | None => True
  | Some (xmin, xmax) =>
      exists v, Joined.x r = Some v /\ (xmin <= v <= xmax)%Z
  end.

Definition y_within (s : ChartSpec) (r : Joined.t) : Prop :=
  match ydomain s with
  | None => True
  | Some (ymin, ymax) =>
      (ymin <=? Joined.y r) = true /\ (Joined.y r <=? ymax) = true
  end.

(** The number of rows selected by [p] before position [i]. *)
Definition rank {A : Type} (p : A -> bool) (d : list A) (i : nat) : nat :=
  List.length (filter p (firstn i d)).

Definition same_group (g : string) (r : Series.t) : bool :=
  String.eqb (Series.group r) g.

(** What [cumulate_group] reads from a frame: everything but [y]. *)
Definition skeleton (d : list Series.t) : list Obs.t :=
  map (fun r => Obs.mk (Series.group r) (Series.date r) (Series.measure r)) d.

(** The value that the loop of lines 72-74 leaves in row [i]. *)
Definition running_sum (df : list Obs.t) (i : nat) (g : string) : float :=
  let p := fun o => String.eqb (Obs.group o) g in
  nth (rank p df i) (cumsum (map Obs.measure (filter p df))) nan.

(** Stable insertion sort of rows by date. *)
Fixpoint insert_by_date (o : Obs.t) (l : list Obs.t) : list Obs.t :=
  match l with
  | [] => [o]
  | h :: t => if (Obs.date h <? Obs.date o)%Z then h :: insert_by_date o t else o :: l
  end.

Definition sort_by_date (l : list Obs.t) : list Obs.t :=
  fold_right insert_by_date [] l.

(** The spec's reading of [y] for a measure that is not cumulative, "the
    running sum of the raw measure within each group ordered by date", at row
    [o]: the rows of the group of [o] dated up to the date of [o] are put in
    date order and summed cumulatively; the sum reached at the end is the
    value. *)
Definition running_sum_by_date (df : list Obs.t) (o : Obs.t) : float :=
  last (cumsum
          (map Obs.measure
             (sort_by_date
                (filter (fun r => String.eqb (Obs.group r) (Obs.group o)
                                  && (Obs.date r <=? Obs.date o)%Z) df))))
       nan.

Definition date_lt (a b : Obs.t) : Prop := (Obs.date a < Obs.date b)%Z.

(** The rows of every group appear in strictly increasing date order. *)
Definition dates_increasing (df : list Obs.t) : Prop :=
  forall g, StronglySorted date_lt
              (filter (fun r => String.eqb (Obs.group r) g) df).

(** A key in [Z * Z * Z], ordered lexicographically, that orders the
    non-missing values as the IEEE comparison does. *)
Definition sf_key (f : spec_float) : Z * Z * Z :=
  match f with
  | S754_zero _ => (0, 0, 0)%Z
  | S754_infinity true => (-2, 0, 0)%Z
  | S754_infinity false => (2, 0, 0)%Z
  | S754_nan => (0, 0, 0)%Z
  | S754_finite true m e => (-1, - e, - Z.pos m)%Z
  | S754_finite false m e => (1, e, Z.pos m)%Z
  end.

Definition key_lt (a b : Z * Z * Z) : Prop :=
  let '(a1, a2, a3) := a in
  let '(b1, b2, b3) := b in
  (a1 < b1 \/ (a1 = b1 /\ (a2 < b2 \/ (a2 = b2 /\ a3 < b3))))%Z.

Definition fkey (v : float) : Z * Z * Z := sf_key (Prim2SF v).

Definition str_lt (a b : string) : Prop := String.ltb a b = true.

(** An entry ranks before another: larger value, or equal value and smaller
    key. *)
Definition ranks_before (a b : string * float) : Prop :=
  (snd b <? snd a) = true \/
  ((snd a =? snd b) = true /\ String.ltb (fst a) (fst b) = true).

(** The group has a row whose [y] is not missing. *)
Definition has_y (df : list Series.t) (g : string) : bool :=
  existsb (fun r => String.eqb (Series.group r) g && notna (Series.y r)) df.

(** The series that [nlargest] orders: the groups with a non-missing
    maximum, in key order. *)
Definition ranked (df : list Series.t) : list (string * float) :=
  filter (fun kv => notna (snd kv)) (groupby_max df).

(** The groups whose maximum is missing, in key order, and the order in
    which [nlargest] takes the groups. *)
Definition unranked (df : list Series.t) : list (string * float) :=
  filter (fun kv => is_nan (snd kv)) (groupby_max df).

Definition selection_order (df : list Series.t) : list (string * float) :=
  sort_desc (ranked df) ++ unranked df.

(** Group [g] is taken before group [h]: among groups with a [y], the one
    that ranks before; a group with a [y] before one without; among groups
    without, the smaller key. *)
Definition takes_before (df : list Series.t) (g h : string) : Prop :=
  match has_y df g, has_y df h with
  | true, true => ranks_before (g, group_max df g) (h, group_max df h)
  | true, false => True
  | false, true => False
  | false, false => str_lt g h
  end.

(** The aligned row that a row of the returned frame carries; none for a
    row appended at line 118, whose date, [x] and anchor are missing. *)
Definition aligned_part (r : Joined.t) : option Aligned.t :=
  match Joined.date r, Joined.x r, Joined.date_of_N r with
  | Some d, Some x, Some n =>
      Some (Aligned.mk (Joined.group r) d (Joined.measure r) (Joined.y r) x n)
  | _, _, _ => None
  end.

Definition data_rows (out : list Joined.t) : list Aligned.t :=
  flat_map (fun r => match aligned_part r with Some a => [a] | None => [] end) out.

(** The frame with every missing measure replaced by 0. *)
Definition zero_if_missing (v : float) : float := if is_nan v then 0 else v.

Definition fill_measures (df : list Obs.t) : list Obs.t :=
  map (fun o => Obs.mk (Obs.group o) (Obs.date o) (zero_if_missing (Obs.measure o))) df.

(** The [y] that lines 70-74 leave in row [i]. *)
Definition summed_y (df : list Obs.t) (i : nat) : option float :=
  option_map Series.y (nth_error (add_y false df) i).

(** Successive assignments, and the assignments that [set_defaults] makes
    on a chart, in the order of lines 232-248. *)
Definition set_all (kvs : list (string * py)) (s : list (string * py))
  : list (string * py) :=
  fold_left (fun s kv => setattr (fst kv) (snd kv) s) kvs s.

Definition with_attrs (a : list (string * py)) (c : Chart) : Chart :=
  {| state := state c; groupcol := groupcol c; xcol := xcol c; ycol := ycol c;
     attrs := a |}.

Definition default_entries (DEFAULT_POINT_SIZE DEFAULT_WIDTH DEFAULT_HEIGHT : py)
           (c : Chart) : list (string * py) :=
  [("detailby", PyStr (groupcol c)); ("colorby", PyStr (groupcol c));
   ("point_size", DEFAULT_POINT_SIZE); ("lines", PyBool true);
   ("points", PyBool true); ("yscale", PyStr "log");
   ("click_selection", PyBool true); ("legend_selection", PyBool true);
   ("has_tooltips", PyBool true); ("tooltip_points", PyBool true);
   ("has_tooltips", PyBool true); ("tooltip_text", PyBool true);
   ("has_tooltips", PyBool true); ("tooltip_rules", PyBool true);
   ("lockdown_extrapolation", PyBool true); ("interactive", PyBool false);
   ("width", DEFAULT_WIDTH); ("height", DEFAULT_HEIGHT)]%string
  ++ match quarantine_df (state c) with
     | Some _ => [("has_tooltips", PyBool true); ("lockdown_rules", PyBool true)]%string
     | None => []
     end.

(** The attributes that [set_defaults] writes on every chart. *)
Definition default_names : list string :=
  ["detailby"; "colorby"; "point_size"; "lines"; "points"; "yscale";
   "click_selection"; "legend_selection"; "has_tooltips"; "tooltip_points";
   "tooltip_text"; "tooltip_rules"; "lockdown_extrapolation"; "interactive";
   "width"; "height"]%string.

(** The row test of lines 120-125 for given limits. *)
Definition x_between (limits : Z * Z) (r : Joined.t) : bool :=
  match Joined.x r with
  | Some v => (fst limits <=? v)%Z && (v <=? snd limits)%Z
  | None => false
  end.

Definition y_between (limits : float * float) (r : Joined.t) : bool :=
  (fst limits <=? Joined.y r) && (Joined.y r <=? snd limits).



(** * Sample data *)

(** A math library that answers nothing.  It stands in for the platform's
    library in closed examples, all of which only meet arguments at which
    IEEE 754 fixes the value. *)
Definition no_libm (v : float) : float := nan.

(** Two regions; region A has two complete intervention records after its
    anchor and one without a type, region B has one on its anchor date. *)
Definition sample_df : list Obs.t :=
  [Obs.mk "A" 1 50; Obs.mk "B" 1 60; Obs.mk "A" 2 50; Obs.mk "B" 2 70;
   Obs.mk "A" 3 200].

Definition sample_events : list Event.t :=
  [Event.mk (Some "A"%string) (Some 3%Z) (Some "full"%string) false;
   Event.mk (Some "A"%string) (Some 2%Z) (Some "partial"%string) false;
   Event.mk (Some "B"%string) (Some 1%Z) (Some "full"%string) false;
   Event.mk (Some "A"%string) (Some 2%Z) None false].

Definition sample_chart : CovidChart :=
  {| df := sample_df; quarantine_df := Some sample_events;
     start_criterion := days_since_num_reached 50;
     ycol_is_cumulative := true; top_k_groups := None;
     spec := {| xdomain := None; ydomain := None |} |}.

Definition sample_run : CovidChart -> option (list Joined.t) :=
  preprocess_df no_libm no_libm days_between_spec.

(** The sample chart with a y-domain, as the build script configures one. *)
Definition clipped_chart : CovidChart :=
  {| df := sample_df; quarantine_df := Some sample_events;
     start_criterion := days_since_num_reached 50;
     ycol_is_cumulative := true; top_k_groups := None;
     spec := {| xdomain := None; ydomain := Some (50, 1000000) |} |}.

(** The sample frame without an intervention table, keeping the top group. *)
Definition top1_chart : CovidChart :=
  {| df := sample_df; quarantine_df := None;
     start_criterion := days_since_num_reached 50;
     ycol_is_cumulative := true; top_k_groups := Some 1%Z;
     spec := {| xdomain := None; ydomain := None |} |}.

(** A region whose count is still 0 on its anchor date and 5 on the day of
    the intervention. *)
Definition zero_start_chart : CovidChart :=
  {| df := [Obs.mk "A" 1 0; Obs.mk "A" 2 5];
     quarantine_df := Some [Event.mk (Some "A"%string) (Some 2%Z)
                              (Some "full"%string) false];
     start_criterion := days_since_num_reached 0;
     ycol_is_cumulative := true; top_k_groups := None;
     spec := {| xdomain := None; ydomain := None |} |}.

(** The first row of region B in the output of the sample chart. *)
Definition sample_row_B : Joined.t :=
  Joined.mk "B" (Some 1%Z) 60 60 (Some 0%Z) (Some 1%Z) None None None 60 nan nan.

(** Region A reported out of date order: 1 on day 2, then 10 on day 1. *)
Definition unordered_df : list Obs.t := [Obs.mk "A" 2 1; Obs.mk "A" 1 10].

(** Two regions with the same peak, the later key first in the table. *)
Definition tie_df : list Series.t :=
  [Series.mk "b" 1 5 5; Series.mk "a" 1 5 5].

(** A region whose only count is missing, next to a region with data. *)
Definition missing_df : list Series.t :=
  [Series.mk "a" 1 nan nan; Series.mk "b" 1 5 5].

(** The rows of region A on its first two days in the frame of line 108 of
    the sample chart. *)
Definition sample_row_A : Joined.t :=
  Joined.mk "A" (Some 1%Z) 50 50 (Some 0%Z) (Some 1%Z) (Some 2%Z)
    (Some "partial"%string) (Some 1%Z) 50 50 1.

Definition sample_row_A2 : Joined.t :=
  Joined.mk "A" (Some 2%Z) 50 50 (Some 1%Z) (Some 1%Z) (Some 2%Z)
    (Some "partial"%string) (Some 1%Z) 50 50 1.

(** A region with no report on its second day. *)
Definition gap_df : list Obs.t := [Obs.mk "A" 1 5; Obs.mk "A" 2 nan; Obs.mk "A" 3 7].


(** * Properties *)

(** ** Keys and groups *)

Lemma In_unique (l : list string) (a : string) : In a (unique l) <-> In a l.
Proof.
  induction l as [|b t IH]; simpl; [tauto|].
  rewrite filter_In, IH, negb_true_iff, String.eqb_neq.
  destruct (String.eqb_spec a b); subst; intuition congruence.
Qed.

Lemma NoDup_unique (l : list string) : NoDup (unique l).
Proof.
  induction l as [|b t IH]; simpl; constructor.
  - rewrite filter_In, String.eqb_refl. intros [_ H]. discriminate.
  - now apply NoDup_filter.
Qed.

Lemma insert_key_perm (k : string) (l : list string) :
  Permutation (insert_key k l) (k :: l).
Proof.
  induction l as [|h t IH]; simpl; [reflexivity|].
  destruct (String.leb k h); [reflexivity|].
  rewrite IH. apply perm_swap.
Qed.

Lemma sort_keys_perm (l : list string) : Permutation (sort_keys l) l.
Proof.
  induction l as [|h t IH]; simpl; [reflexivity|].
  rewrite insert_key_perm. now constructor.
Qed.

Lemma In_group_keys (col : list string) (g : string) :
  In g (group_keys col) <-> In g col.
Proof.
  unfold group_keys. split; intros H.
  - apply In_unique. eapply Permutation_in; [apply sort_keys_perm|exact H].
  - eapply Permutation_in; [symmetry; apply sort_keys_perm|].
    now apply In_unique.
Qed.

Lemma NoDup_group_keys (col : list string) : NoDup (group_keys col).
Proof.
  unfold group_keys.
  eapply Permutation_NoDup; [symmetry; apply sort_keys_perm|apply NoDup_unique].
Qed.

(** ** Frames with an index *)

Lemma map_fst_combine {A B : Type} (l : list A) (l' : list B) :
  List.length l = List.length l' -> map fst (combine l l') = l.
Proof.
  revert l'. induction l as [|a l IH]; intros [|b l']; simpl; try easy.
  intros H. f_equal. apply IH. now injection H.
Qed.

Lemma map_snd_combine {A B : Type} (l : list A) (l' : list B) :
  List.length l = List.length l' -> map snd (combine l l') = l'.
Proof.
  revert l'. induction l as [|a l IH]; intros [|b l']; simpl; try easy.
  intros H. f_equal. apply IH. now injection H.
Qed.

Lemma filter_none {A : Type} (p : A -> bool) (l : list A) :
  (forall a, In a l -> p a = false) -> filter p l = [].
Proof.
  induction l as [|a l IH]; simpl; intros H; [reflexivity|].
  rewrite (H a (or_introl eq_refl)). apply IH. intros b Hb. apply H. now right.
Qed.

(** Rows whose keys are pairwise distinct stay so under a selection. *)
Lemma NoDup_keys_filter {K V : Type} (key : V -> K) (keep : V -> bool)
      (rows : list V) (Hnd : NoDup (map key rows)) :
  NoDup (map key (filter keep rows)).
Proof.
  induction rows as [|v rows IH]; cbn [filter map]; [constructor|].
  apply NoDup_cons_iff in Hnd as [Hv Hrest].
  destruct (keep v); cbn [map]; [|now apply IH].
  apply NoDup_cons; [|now apply IH].
  rewrite in_map_iff. intros [w [Ew Hw]].
  apply Hv. rewrite <- Ew. apply in_map.
  now apply filter_In in Hw.
Qed.

Section FrameFacts.
Context {A : Type}.

Lemma range_index_labels (l : list A) :
  map fst (range_index l) = seq 0 (List.length l).
Proof.
  unfold range_index. rewrite map_fst_combine; [reflexivity|].
  now rewrite length_seq.
Qed.

Lemma range_index_rows (l : list A) : map snd (range_index l) = l.
Proof.
  unfold range_index. rewrite map_snd_combine; [reflexivity|].
  now rewrite length_seq.
Qed.

Lemma NoDup_range_index (l : list A) : NoDup (map fst (range_index l)).
Proof. rewrite range_index_labels. apply seq_NoDup. Qed.

Lemma NoDup_labels_filter (p : nat * A -> bool) (f : list (nat * A)) :
  NoDup (map fst f) -> NoDup (map fst (filter p f)).
Proof. apply NoDup_keys_filter. Qed.

Lemma loc_single (f : list (nat * A)) (m : nat * A) :
  NoDup (map fst f) -> In m f -> loc [fst m] f = [snd m].
Proof.
  unfold loc. simpl. rewrite app_nil_r.
  induction f as [|a f IH]; simpl; intros H Hin; [easy|].
  inversion H as [|? ? Hn Hd]; subst.
  destruct Hin as [->|Hin].
  - rewrite Nat.eqb_refl. simpl. f_equal.
    assert (E : filter (fun ir => Nat.eqb (fst ir) (fst m)) f = []).
    { apply filter_none. intros b Hb.
      apply Nat.eqb_neq. intros E. apply Hn.
      rewrite <- E. now apply in_map. }
    now rewrite E.
  - destruct (Nat.eqb_spec (fst a) (fst m)) as [E|E].
    + exfalso. apply Hn. rewrite E. now apply in_map.
    + now apply IH.
Qed.

Lemma loc_flat_map {B : Type} (h : B -> list nat) (keys : list B)
      (f : list (nat * A)) :
  loc (flat_map h keys) f = flat_map (fun k => loc (h k) f) keys.
Proof.
  unfold loc. induction keys as [|k keys IH]; simpl; [reflexivity|].
  now rewrite flat_map_app, IH.
Qed.

Variable grp : A -> string.
Variable val : A -> Z.

Lemma first_min_spec (l : list (nat * A)) (b : nat * A) :
  In (first_min val b l) (b :: l) /\
  Forall (fun ir => (val (snd (first_min val b l)) <= val (snd ir))%Z) (b :: l).
Proof.
  unfold first_min. revert b.
  induction l as [|a l IH]; intros b; simpl.
  - split; [now left|]. constructor; [lia|constructor].
  - destruct (IH (if (val (snd a) <? val (snd b))%Z then a else b)) as [Hin Hall].
    inversion Hall as [|? ? Hb Hl]; subst.
    split.
    + destruct (val (snd a) <? val (snd b))%Z; simpl in Hin; tauto.
    + destruct (Z.ltb_spec (val (snd a)) (val (snd b))); repeat constructor; auto; lia.
Qed.

Lemma first_max_spec (l : list (nat * A)) (b : nat * A) :
  In (first_max val b l) (b :: l) /\
  Forall (fun ir => (val (snd ir) <= val (snd (first_max val b l)))%Z) (b :: l).
Proof.
  unfold first_max. revert b.
  induction l as [|a l IH]; intros b; simpl.
  - split; [now left|]. constructor; [lia|constructor].
  - destruct (IH (if (val (snd b) <? val (snd a))%Z then a else b)) as [Hin Hall].
    inversion Hall as [|? ? Hb Hl]; subst.
    split.
    + destruct (val (snd b) <? val (snd a))%Z; simpl in Hin; tauto.
    + destruct (Z.ltb_spec (val (snd b)) (val (snd a))); repeat constructor; auto; lia.
Qed.

Lemma loc_idxmin (f : list (nat * A)) :
  NoDup (map fst f) ->
  loc (idxmin grp val f) f
  = flat_map (group_min grp val f) (group_keys (map (fun ir => grp (snd ir)) f)).
Proof.
  intros Hnd. unfold idxmin. rewrite loc_flat_map.
  apply flat_map_ext. intros g. unfold group_min.
  destruct (rows_of grp g f) as [|b t] eqn:E; [reflexivity|].
  apply loc_single; [assumption|].
  destruct (first_min_spec t b) as [Hin _].
  rewrite <- E in Hin. unfold rows_of in Hin.
  now apply filter_In in Hin.
Qed.

Lemma loc_idxmax (f f' : list (nat * A)) :
  NoDup (map fst f) -> incl f' f ->
  loc (idxmax grp val f') f
  = flat_map (group_max_row grp val f') (group_keys (map (fun ir => grp (snd ir)) f')).
Proof.
  intros Hnd Hincl. unfold idxmax. rewrite loc_flat_map.
  apply flat_map_ext. intros g. unfold group_max_row.
  destruct (rows_of grp g f') as [|b t] eqn:E; [reflexivity|].
  apply loc_single; [assumption|].
  destruct (first_max_spec t b) as [Hin _].
  rewrite <- E in Hin. unfold rows_of in Hin.
  apply filter_In in Hin. now apply Hincl.
Qed.

Lemma group_min_spec (f : list (nat * A)) (g : string) (r : A) :
  In r (group_min grp val f g) ->
  grp r = g /\ In r (map snd f) /\
  forall r', In r' (map snd f) -> grp r' = g -> (val r <= val r')%Z.
Proof.
  unfold group_min. destruct (rows_of grp g f) as [|b t] eqn:E; [easy|].
  intros [<-|[]].
  destruct (first_min_spec t b) as [Hin Hall].
  rewrite <- E in Hin, Hall. unfold rows_of in Hin, Hall.
  apply filter_In in Hin as [Hin Hg]. apply String.eqb_eq in Hg.
  split; [assumption|]. split; [now apply in_map|].
  intros r' Hr' Hg'. apply in_map_iff in Hr' as [ir [<- Hir]].
  rewrite Forall_forall in Hall. apply Hall.
  apply filter_In. split; [assumption|]. now apply String.eqb_eq.
Qed.

Lemma group_max_row_spec (f : list (nat * A)) (g : string) (r : A) :
  In r (group_max_row grp val f g) ->
  grp r = g /\ In r (map snd f) /\
  forall r', In r' (map snd f) -> grp r' = g -> (val r' <= val r)%Z.
Proof.
  unfold group_max_row. destruct (rows_of grp g f) as [|b t] eqn:E; [easy|].
  intros [<-|[]].
  destruct (first_max_spec t b) as [Hin Hall].
  rewrite <- E in Hin, Hall. unfold rows_of in Hin, Hall.
  apply filter_In in Hin as [Hin Hg]. apply String.eqb_eq in Hg.
  split; [assumption|]. split; [now apply in_map|].
  intros r' Hr' Hg'. apply in_map_iff in Hr' as [ir [<- Hir]].
  rewrite Forall_forall in Hall. apply Hall.
  apply filter_In. split; [assumption|]. now apply String.eqb_eq.
Qed.

Lemma group_min_nonempty (f : list (nat * A)) (r : A) :
  In r (map snd f) -> exists m, group_min grp val f (grp r) = [m].
Proof.
  intros Hr. apply in_map_iff in Hr as [ir [<- Hir]].
  unfold group_min.
  destruct (rows_of grp (grp (snd ir)) f) as [|b t] eqn:E; [|eauto].
  exfalso. assert (H : In ir (rows_of grp (grp (snd ir)) f)).
  { apply filter_In. split; [assumption|apply String.eqb_refl]. }
  now rewrite E in H.
Qed.

Lemma group_max_row_nonempty (f : list (nat * A)) (r : A) :
  In r (map snd f) -> exists m, group_max_row grp val f (grp r) = [m].
Proof.
  intros Hr. apply in_map_iff in Hr as [ir [<- Hir]].
  unfold group_max_row.
  destruct (rows_of grp (grp (snd ir)) f) as [|b t] eqn:E; [|eauto].
  exfalso. assert (H : In ir (rows_of grp (grp (snd ir)) f)).
  { apply filter_In. split; [assumption|apply String.eqb_refl]. }
  now rewrite E in H.
Qed.
End FrameFacts.

Lemma map_snd_loc_mask {A : Type} (p : A -> bool) (f : list (nat * A)) :
  map snd (loc_mask p f) = filter p (map snd f).
Proof.
  unfold loc_mask. induction f as [|a f IH]; simpl; [reflexivity|].
  destruct (p (snd a)); simpl; now rewrite IH.
Qed.

Lemma groups_of_group_min {A : Type} (grp : A -> string) (val : A -> Z)
      (f : list (nat * A)) (keys : list string) :
  (forall g, In g keys -> In g (map (fun ir => grp (snd ir)) f)) ->
  map grp (flat_map (group_min grp val f) keys) = keys.
Proof.
  induction keys as [|g keys IH]; simpl; intros H; [reflexivity|].
  rewrite map_app, IH by (intros; apply H; now right).
  assert (Hg : In g (map (fun ir => grp (snd ir)) f)) by (apply H; now left).
  apply in_map_iff in Hg as [ir [Hg Hir]].
  destruct (group_min_nonempty grp val f (snd ir) (in_map snd _ _ Hir)) as [m Hm].
  rewrite Hg in Hm. rewrite Hm. simpl. f_equal.
  apply (group_min_spec grp val f g m). rewrite Hm. now left.
Qed.

Lemma groups_of_group_max_row {A : Type} (grp : A -> string) (val : A -> Z)
      (f : list (nat * A)) (keys : list string) :
  (forall g, In g keys -> In g (map (fun ir => grp (snd ir)) f)) ->
  map grp (flat_map (group_max_row grp val f) keys) = keys.
Proof.
  induction keys as [|g keys IH]; simpl; intros H; [reflexivity|].
  rewrite map_app, IH by (intros; apply H; now right).
  assert (Hg : In g (map (fun ir => grp (snd ir)) f)) by (apply H; now left).
  apply in_map_iff in Hg as [ir [Hg Hir]].
  destruct (group_max_row_nonempty grp val f (snd ir) (in_map snd _ _ Hir)) as [m Hm].
  rewrite Hg in Hm. rewrite Hm. simpl. f_equal.
  apply (group_max_row_spec grp val f g m). rewrite Hm. now left.
Qed.

(** ** Merging on a key that is unique on the right *)

Section MergeFacts.
Context {A B C : Type}.
Variable key_l : A -> string.
Variable key_r : B -> string.

Lemma matches_unique (a : A) (r : list B) :
  NoDup (map key_r r) ->
  matches key_l key_r a r
  = match lookup key_r (key_l a) r with Some b => [b] | None => [] end.
Proof.
  unfold matches, lookup.
  induction r as [|b r IH]; simpl; intros H; [reflexivity|].
  inversion H as [|? ? Hn Hd]; subst.
  destruct (String.eqb_spec (key_r b) (key_l a)) as [E|E].
  - f_equal. apply filter_none. intros b' Hb'.
    apply String.eqb_neq. intros E'. apply Hn. rewrite E, <- E'. now apply in_map.
  - now apply IH.
Qed.

Lemma merge_left_unique (pair : A -> option B -> C) (l : list A) (r : list B) :
  NoDup (map key_r r) ->
  merge_left key_l key_r pair l r = map (fun a => pair a (lookup key_r (key_l a) r)) l.
Proof.
  intros H. unfold merge_left.
  induction l as [|a l IH]; cbn [flat_map]; [reflexivity|].
  rewrite IH, (matches_unique a r H).
  destruct (lookup key_r (key_l a) r) eqn:E; simpl; now rewrite E.
Qed.

Lemma lookup_Some (g : string) (r : list B) (b : B) :
  lookup key_r g r = Some b -> In b r /\ key_r b = g.
Proof.
  unfold lookup. intros H. apply find_some in H as [H1 H2].
  split; [assumption|now apply String.eqb_eq].
Qed.

Lemma lookup_None (g : string) (r : list B) :
  lookup key_r g r = None -> forall b, In b r -> key_r b <> g.
Proof.
  unfold lookup. intros H b Hb.
  apply String.eqb_neq. exact (find_none _ _ H b Hb).
Qed.

End MergeFacts.

(** ** The intervention join, row by row *)

Section JoinFacts.
Variables libm_log libm_exp : float -> float.
Variable days_between : Z -> Z -> Z.

Lemma retained_eq (q : list Event.t) (d : list Aligned.t) :
  let f := loc_mask (fun e => (0 <? Lockdown.lockdown_x e)%Z)
                    (range_index (lockdown_rows days_between (dropna q) d)) in
  retained_rows days_between q d
  = flat_map (group_min Lockdown.group Lockdown.lockdown_x f)
             (group_keys (map (fun ir => Lockdown.group (snd ir)) f))
  /\ map snd f = qualifying days_between q d.
Proof.
  intros f. split.
  - unfold retained_rows, earliest_lockdowns. fold f.
    apply loc_idxmin. apply NoDup_labels_filter, NoDup_range_index.
  - unfold f, qualifying. now rewrite map_snd_loc_mask, range_index_rows.
Qed.

Lemma retained_groups (q : list Event.t) (d : list Aligned.t) :
  map Lockdown.group (retained_rows days_between q d)
  = group_keys (map Lockdown.group (qualifying days_between q d)).
Proof.
  destruct (retained_eq q d) as [E1 E2]. cbv zeta in E1, E2.
  rewrite E1, <- E2, map_map.
  apply groups_of_group_min. intros g Hg. exact (proj1 (In_group_keys _ _) Hg).
Qed.

Lemma NoDup_retained (q : list Event.t) (d : list Aligned.t) :
  NoDup (map Lockdown.group (retained_rows days_between q d)).
Proof. rewrite retained_groups. apply NoDup_group_keys. Qed.

Lemma retained_spec (q : list Event.t) (d : list Aligned.t) (e : Lockdown.t) :
  In e (retained_rows days_between q d) ->
  In e (qualifying days_between q d) /\
  forall e', In e' (qualifying days_between q d) -> Lockdown.group e' = Lockdown.group e ->
             (Lockdown.lockdown_x e <= Lockdown.lockdown_x e')%Z.
Proof.
  destruct (retained_eq q d) as [E1 E2]. cbv zeta in E1, E2.
  rewrite E1, <- E2. intros H.
  apply in_flat_map in H as [g [_ H]].
  apply group_min_spec in H as [Hg [Hin Hmin]].
  split; [assumption|]. intros e' He' Hge. apply Hmin; congruence.
Qed.

Lemma retained_exists (q : list Event.t) (d : list Aligned.t) (e' : Lockdown.t) :
  In e' (qualifying days_between q d) ->
  exists e, In e (retained_rows days_between q d) /\
            Lockdown.group e = Lockdown.group e'.
Proof.
  intros H.
  assert (Hg : In (Lockdown.group e')
                  (map Lockdown.group (retained_rows days_between q d))).
  { rewrite retained_groups. apply In_group_keys. now apply in_map. }
  apply in_map_iff in Hg as [e [Hg He]]. eauto.
Qed.

Lemma qualifying_positive (q : list Event.t) (d : list Aligned.t) (e : Lockdown.t) :
  In e (qualifying days_between q d) -> (0 < Lockdown.lockdown_x e)%Z.
Proof.
  unfold qualifying. intros H. apply filter_In in H as [_ H].
  now apply Z.ltb_lt.
Qed.

Lemma merge_lockdowns_rowwise (d : list Aligned.t) (R : list Lockdown.t) :
  NoDup (map Lockdown.group R) ->
  merge_lockdowns d R = map (merged_row R) d.
Proof.
  intros H. unfold merge_lockdowns. rewrite merge_left_unique by assumption.
  apply map_ext. intros r. unfold merged_row.
  now destruct (lookup Lockdown.group (Aligned.group r) R).
Qed.

Lemma NoDup_df_intercept (m : list Merged.t) : NoDup (map fst (df_intercept m)).
Proof.
  unfold df_intercept. rewrite map_map. simpl. rewrite map_id.
  apply NoDup_group_keys.
Qed.

Lemma df_lockdown_y_eq (m : list Merged.t) :
  let f' := loc_mask (fun r => le_opt (Merged.x r) (Merged.lockdown_x r))
                     (range_index m) in
  df_lockdown_y m
  = flat_map (group_max_row Merged.group Merged.x f')
             (group_keys (map (fun ir => Merged.group (snd ir)) f')).
Proof.
  intros f'. unfold df_lockdown_y. fold f'.
  apply loc_idxmax; [apply NoDup_range_index|].
  intros ir H. unfold f', loc_mask in H. now apply filter_In in H.
Qed.

Lemma NoDup_df_lockdown_y (m : list Merged.t) :
  NoDup (map Merged.group (df_lockdown_y m)).
Proof.
  rewrite df_lockdown_y_eq. cbv zeta.
  rewrite groups_of_group_max_row; [apply NoDup_group_keys|].
  intros g Hg. exact (proj1 (In_group_keys _ _) Hg).
Qed.

Lemma join_rowwise (q : list Event.t) (d : list Aligned.t) :
  let R := retained_rows days_between q d in
  let M := map (merged_row R) d in
  joined_rows libm_log libm_exp days_between q d
  = map (joined_row libm_log libm_exp R (df_intercept M) (df_lockdown_y M)) d.
Proof.
  intros R M. unfold joined_rows, join_lockdowns. fold R.
  rewrite (merge_lockdowns_rowwise d R (NoDup_retained q d)). fold M.
  unfold add_intercept, add_lockdown_y.
  rewrite merge_left_unique by apply NoDup_df_lockdown_y.
  rewrite merge_left_unique by apply NoDup_df_intercept.
  unfold M. rewrite !map_map. apply map_ext. intros r.
  unfold joined_row, intercept_of, lockdown_y_of.
  assert (E : Merged.group (merged_row R r) = Aligned.group r).
  { unfold merged_row. now destruct (lookup Lockdown.group (Aligned.group r) R). }
  cbn [fst]. now rewrite E.
Qed.

Lemma join_length (q : list Event.t) (d : list Aligned.t) :
  List.length (joined_rows libm_log libm_exp days_between q d)
  = List.length d.
Proof. rewrite join_rowwise. cbv zeta. apply length_map. Qed.
End JoinFacts.

(** ** Missing values in comparisons and divisions *)

Lemma leb_nan_r (a : float) : (a <=? nan) = false.
Proof.
  rewrite leb_spec. unfold SFleb. change (Prim2SF nan) with S754_nan.
  unfold SFcompare. now destruct (Prim2SF a).
Qed.

Lemma div_nan_l (v : float) : nan / v = nan.
Proof. rewrite <- (SF2Prim_Prim2SF (nan / v)), div_spec. reflexivity. Qed.

(** ** Group-wise maxima of a constant column *)

Lemma max_optZ_const (c : option Z) (l : list (option Z)) :
  l <> [] -> (forall o, In o l -> o = c) -> max_optZ l = c.
Proof.
  unfold max_optZ. destruct l as [|o l]; [easy|]. intros _ H. simpl.
  rewrite (H o (or_introl eq_refl)).
  assert (Hl : forall o', In o' l -> o' = c) by (intros; apply H; now right).
  clear H. replace (match c with Some _ | None => c end) with c by now destruct c.
  induction l as [|o' l IH]; simpl; [reflexivity|].
  rewrite (Hl o' (or_introl eq_refl)).
  replace (match c with
           | Some a => match c with Some b => Some (Z.max a b) | None => c end
           | None => c
           end) with c by (destruct c; [now rewrite Z.max_id|reflexivity]).
  apply IH. intros; apply Hl; now right.
Qed.

Lemma max_optstring_const (c : option string) (l : list (option string)) :
  l <> [] -> (forall o, In o l -> o = c) -> max_optstring l = c.
Proof.
  unfold max_optstring. destruct l as [|o l]; [easy|]. intros _ H. simpl.
  rewrite (H o (or_introl eq_refl)).
  assert (Hl : forall o', In o' l -> o' = c) by (intros; apply H; now right).
  clear H. replace (match c with Some _ | None => c end) with c by now destruct c.
  induction l as [|o' l IH]; simpl; [reflexivity|].
  rewrite (Hl o' (or_introl eq_refl)).
  replace (match c with
           | Some a =>
               match c with
               | Some b => Some (if String.ltb a b then b else a)
               | None => c
               end
           | None => c
           end) with c by (destruct c as [a|]; [now destruct (String.ltb a a)|reflexivity]).
  apply IH. intros; apply Hl; now right.
Qed.

(** ** Lockdown columns of the joined frame *)

Section LockdownColumns.
Variables libm_log libm_exp : float -> float.
Variable days_between : Z -> Z -> Z.

Local Abbreviation join := (joined_rows libm_log libm_exp days_between).
Local Abbreviation retained := (retained_rows days_between).

Lemma join_In (q : list Event.t) (d : list Aligned.t) (r : Joined.t) :
  In r (join q d) ->
  exists a, In a d /\
    r = joined_row libm_log libm_exp (retained q d)
          (df_intercept (map (merged_row (retained q d)) d))
          (df_lockdown_y (map (merged_row (retained q d)) d)) a.
Proof.
  rewrite join_rowwise. cbv zeta. intros H.
  apply in_map_iff in H as [a [<- Ha]]. eauto.
Qed.

Lemma join_columns (q : list Event.t) (d : list Aligned.t) (r : Joined.t) :
  In r (join q d) ->
  let e := lookup Lockdown.group (Joined.group r) (retained q d) in
  Joined.lockdown_x r = event_x e /\ Joined.lockdown_type r = event_type e /\
  Joined.lockdown_date r = event_date e /\
  (exists a, In a d /\ Aligned.group a = Joined.group r /\
             Joined.x r = Some (Aligned.x a) /\ Joined.y r = Aligned.y a) /\
  Joined.lockdown_slope r
  = slope libm_log libm_exp (Joined.lockdown_y r) (Joined.intercept r)
          (Joined.lockdown_x r).
Proof.
  intros H. apply join_In in H as [a [Ha ->]].
  unfold joined_row, add_slope, merged_row. cbn.
  destruct (lookup Lockdown.group (Aligned.group a) (retained q d)) eqn:E;
    cbn; rewrite ?E; cbn; repeat split; eauto.
Qed.

Lemma new_rows_columns (q : list Event.t) (d : list Aligned.t) (n : Joined.t) :
  In n (new_rows (join q d)) ->
  let e := lookup Lockdown.group (Joined.group n) (retained q d) in
  In (Joined.group n) (map Joined.group (join q d)) /\
  n = Joined.mk (Joined.group n) None nan nan (event_x e) None None
        (event_type e) (event_x e) nan nan nan.
Proof.
  unfold new_rows. intros H. apply in_map_iff in H as [g [<- Hg]].
  apply (proj1 (In_group_keys _ _)) in Hg. cbv zeta. cbn [Joined.group].
  split; [assumption|].
  set (rows := filter _ (join q d)).
  assert (Hne : rows <> []).
  { apply in_map_iff in Hg as [r [Hr Hin]].
    assert (In r rows); [|now destruct rows].
    apply filter_In. split; [assumption|]. now apply String.eqb_eq. }
  assert (Hrows : forall r, In r rows -> In r (join q d) /\ Joined.group r = g).
  { intros r Hr. apply filter_In in Hr as [H1 H2].
    split; [assumption|now apply String.eqb_eq]. }
  rewrite (max_optZ_const (event_x (lookup Lockdown.group g (retained q d)))).
  rewrite (max_optstring_const (event_type (lookup Lockdown.group g (retained q d)))).
  - reflexivity.
  - now destruct rows.
  - intros o Ho. apply in_map_iff in Ho as [r [<- Hr]].
    apply Hrows in Hr as [Hr <-]. now apply join_columns.
  - now destruct rows.
  - intros o Ho. apply in_map_iff in Ho as [r [<- Hr]].
    apply Hrows in Hr as [Hr <-]. now apply join_columns.
Qed.
End LockdownColumns.

(** ** Claims on the intervention join *)

Section JoinClaims.
Variables libm_log libm_exp : float -> float.
Variable days_between : Z -> Z -> Z.

Local Abbreviation join := (joined_rows libm_log libm_exp days_between).
Local Abbreviation retained := (retained_rows days_between).
Local Abbreviation run := (output_rows libm_log libm_exp days_between).

Lemma clip_In (s : ChartSpec) (d : list Joined.t) (r : Joined.t) :
  In r (clip s d) -> In r d.
Proof.
  unfold clip. intros H. apply filter_In in H as [H _].
  now apply filter_In in H.
Qed.

Lemma merge_inner_In {A B C : Type} (key_l : A -> string) (key_r : B -> string)
      (pair : A -> B -> C) (l : list A) (r : list B) (c : C) :
  In c (merge_inner key_l key_r pair l r) ->
  exists a b, In a l /\ In b r /\ key_r b = key_l a /\ c = pair a b.
Proof.
  unfold merge_inner, matches. intros H.
  apply in_flat_map in H as [a [Ha H]].
  apply in_map_iff in H as [b [<- Hb]].
  apply filter_In in Hb as [Hb E]. apply String.eqb_eq in E.
  exists a, b. auto.
Qed.

Lemma retained_positive (q : list Event.t) (d : list Aligned.t) (g : string) (v : Z) :
  event_x (lookup Lockdown.group g (retained q d)) = Some v -> (0 < v)%Z.
Proof.
  destruct (lookup Lockdown.group g (retained q d)) as [e|] eqn:E; [|easy].
  intros [= <-]. apply lookup_Some in E as [E _].
  apply retained_spec in E as [E _]. now apply qualifying_positive in E.
Qed.

Lemma retained_none (q : list Event.t) (d : list Aligned.t) (g : string) :
  (forall e a, In e (dropna q) -> In a d ->
               Intervention.group e = g -> Aligned.group a = g ->
               (days_between (Aligned.date_of_N a) (Intervention.lockdown_date e) <= 0)%Z) ->
  lookup Lockdown.group g (retained q d) = None.
Proof.
  intros H.
  destruct (lookup Lockdown.group g (retained q d)) as [e|] eqn:E; [|reflexivity].
  exfalso. apply lookup_Some in E as [E Hg].
  apply retained_spec in E as [E _].
  pose proof (qualifying_positive days_between q d e E) as Hpos.
  unfold qualifying in E. apply filter_In in E as [E _].
  apply merge_inner_In in E as [i [a [Hi [Ha [Hk ->]]]]].
  cbn in Hpos, Hg. specialize (H i a Hi Ha Hg). rewrite Hk in H.
  specialize (H Hg). lia.
Qed.
(** The table of line 91 has one row per group that has a qualifying event,
    a qualifying event of least [lockdown_x]; each row of the joined frame
    carries that event of its group, or missing values. *)
Lemma earliest_lockdown_rows (q : list Event.t) (d : list Aligned.t) :
  NoDup (map Lockdown.group (retained q d)) /\
  (forall e, In e (retained q d) ->
     In e (lockdown_rows days_between (dropna q) d) /\
     (0 < Lockdown.lockdown_x e)%Z /\
     forall e', In e' (lockdown_rows days_between (dropna q) d) ->
                Lockdown.group e' = Lockdown.group e ->
                (0 < Lockdown.lockdown_x e')%Z ->
                (Lockdown.lockdown_x e <= Lockdown.lockdown_x e')%Z) /\
  (forall e', In e' (lockdown_rows days_between (dropna q) d) ->
              (0 < Lockdown.lockdown_x e')%Z ->
              exists e, In e (retained q d) /\ Lockdown.group e = Lockdown.group e') /\
  (forall r, In r (join q d) ->
     match lookup Lockdown.group (Joined.group r) (retained q d) with
     | Some e => In e (retained q d) /\ Lockdown.group e = Joined.group r /\
                 Joined.lockdown_x r = Some (Lockdown.lockdown_x e) /\
                 Joined.lockdown_type r = Some (Lockdown.lockdown_type e) /\
                 Joined.lockdown_date r = Some (Lockdown.lockdown_date e)
     | None => (forall e, In e (retained q d) -> Lockdown.group e <> Joined.group r) /\
               Joined.lockdown_x r = None /\ Joined.lockdown_type r = None /\
               Joined.lockdown_date r = None
     end).
Proof.
  assert (Hq : forall e, In e (qualifying days_between q d) <->
                         In e (lockdown_rows days_between (dropna q) d) /\
                         (0 < Lockdown.lockdown_x e)%Z).
  { intros e. unfold qualifying. now rewrite filter_In, Z.ltb_lt. }
  split; [apply NoDup_retained|]. split; [|split].
  - intros e He. apply retained_spec in He as [He Hmin].
    apply Hq in He as [He Hpos]. repeat split; try assumption.
    intros e' He' Hg Hpos'. apply Hmin; [|assumption]. now apply Hq.
  - intros e' He' Hpos. apply retained_exists. now apply Hq.
  - intros r Hr. apply join_columns in Hr. cbv zeta in Hr.
    destruct Hr as [Hx [Ht [Hd _]]].
    destruct (lookup Lockdown.group (Joined.group r) (retained q d)) as [e|] eqn:E.
    + apply lookup_Some in E as [E Hg]. cbn in Hx, Ht, Hd. auto.
    + cbn in Hx, Ht, Hd. split; [|auto].
      intros e He. now apply (lookup_None Lockdown.group _ _ E).
Qed.

(** A [lockdown_x] that is not missing is positive; a group without an event
    at a positive offset has missing lockdown columns. *)
Lemma lockdown_x_rows (c : CovidChart) :
  (forall r v, In r (run c) -> Joined.lockdown_x r = Some v -> (0 < v)%Z) /\
  (forall g,
     (forall q e a, quarantine_df c = Some q -> In e (dropna q) ->
                    In a (aligned c) ->
                    Intervention.group e = g -> Aligned.group a = g ->
                    (days_between (Aligned.date_of_N a)
                                  (Intervention.lockdown_date e) <= 0)%Z) ->
     forall r, In r (run c) -> Joined.group r = g ->
               Joined.lockdown_x r = None /\ Joined.lockdown_type r = None /\
               Joined.lockdown_date r = None).
Proof.
  unfold output_rows. split.
  - intros r v Hr Hv. apply clip_In in Hr.
    destruct (quarantine_df c) as [q|]; cbn in Hr.
    + apply in_app_or in Hr as [Hr|Hr].
      * apply join_columns in Hr as [Hx _]. rewrite Hv in Hx.
        now apply (retained_positive q (aligned c) (Joined.group r)).
      * apply new_rows_columns in Hr as [_ Hr]. rewrite Hr in Hv. cbn in Hv.
        now apply (retained_positive q (aligned c) (Joined.group r)).
    + apply in_map_iff in Hr as [a [<- _]]. discriminate.
  - intros g H r Hr Hg. apply clip_In in Hr.
    destruct (quarantine_df c) as [q|]; cbn in Hr.
    + assert (E : lookup Lockdown.group (Joined.group r) (retained q (aligned c)) = None).
      { rewrite Hg. apply retained_none. intros e a. now apply H. }
      apply in_app_or in Hr as [Hr|Hr].
      * apply join_columns in Hr as [Hx [Ht [Hd _]]].
        rewrite E in Hx, Ht, Hd. auto.
      * apply new_rows_columns in Hr as [_ Hr].
        rewrite E in Hr. rewrite Hr. auto.
    + apply in_map_iff in Hr as [a [<- _]]. auto.
Qed.

(** The rows of line 116: one per group of the joined frame, holding the
    group's key, [lockdown_x] and [lockdown_type], and [x = lockdown_x]. *)
Lemma marker_rows_shape (q : list Event.t) (d : list Aligned.t) :
  map Joined.group (new_rows (join q d)) = group_keys (map Joined.group (join q d)) /\
  NoDup (map Joined.group (new_rows (join q d))) /\
  (forall r, In r (join q d) ->
     exists n, In n (new_rows (join q d)) /\
       n = Joined.mk (Joined.group r) None nan nan (Joined.lockdown_x r) None None
             (Joined.lockdown_type r) (Joined.lockdown_x r) nan nan nan) /\
  (forall n, In n (new_rows (join q d)) ->
     exists r, In r (join q d) /\
       n = Joined.mk (Joined.group r) None nan nan (Joined.lockdown_x r) None None
             (Joined.lockdown_type r) (Joined.lockdown_x r) nan nan nan).
Proof.
  assert (Hg : map Joined.group (new_rows (join q d))
               = group_keys (map Joined.group (join q d))).
  { unfold new_rows. rewrite map_map. cbn. apply map_id. }
  split; [exact Hg|]. split; [rewrite Hg; apply NoDup_group_keys|].
  assert (Hn : forall n r, In n (new_rows (join q d)) -> In r (join q d) ->
                 Joined.group r = Joined.group n ->
                 n = Joined.mk (Joined.group r) None nan nan (Joined.lockdown_x r)
                       None None (Joined.lockdown_type r) (Joined.lockdown_x r)
                       nan nan nan).
  { intros n r Hin Hr E. apply new_rows_columns in Hin as [_ Hin].
    apply join_columns in Hr as [Hx [Ht _]].
    rewrite Hx, Ht, E. exact Hin. }
  split.
  - intros r Hr.
    assert (Hk : In (Joined.group r) (map Joined.group (new_rows (join q d)))).
    { rewrite Hg. apply In_group_keys. now apply in_map. }
    apply in_map_iff in Hk as [n [E Hin]]. exists n. split; [assumption|].
    now apply Hn.
  - intros n Hin. destruct (new_rows_columns _ _ _ _ _ _ Hin) as [Hk _].
    apply in_map_iff in Hk as [r [E Hr]]. exists r. split; [assumption|].
    now apply Hn.
Qed.
End JoinClaims.

(** ** Claims on clipping, row counts and marker rows *)

Lemma div_nan_r (v : float) : v / nan = nan.
Proof.
  rewrite <- (SF2Prim_Prim2SF (v / nan)), div_spec.
  change (Prim2SF nan) with S754_nan. now destruct (Prim2SF v).
Qed.

Section FrameClaims.
Variables libm_log libm_exp : float -> float.
Variable days_between : Z -> Z -> Z.

Local Abbreviation join := (joined_rows libm_log libm_exp days_between).
Local Abbreviation run := (output_rows libm_log libm_exp days_between).

Lemma in_xdomain_iff (s : ChartSpec) (r : Joined.t) :
  in_xdomain s r = true <-> x_within s r.
Proof.
  unfold in_xdomain, x_within. destruct (xdomain s) as [[lo hi]|]; [|tauto].
  destruct (Joined.x r) as [v|].
  - rewrite andb_true_iff, !Z.leb_le. split.
    + intros H. exists v. auto.
    + intros [v' [[= <-] H]]. exact H.
  - split; [discriminate|]. now intros [v [H _]].
Qed.

Lemma in_ydomain_iff (s : ChartSpec) (r : Joined.t) :
  in_ydomain s r = true <-> y_within s r.
Proof.
  unfold in_ydomain, y_within. destruct (ydomain s) as [[lo hi]|]; [|tauto].
  apply andb_true_iff.
Qed.

Lemma filter_idem {A : Type} (p : A -> bool) (l : list A) :
  filter p (filter p l) = filter p l.
Proof.
  induction l as [|a l IH]; simpl; [reflexivity|].
  destruct (p a) eqn:E; simpl; [rewrite E|]; now rewrite IH.
Qed.

Lemma filter_comm {A : Type} (p p' : A -> bool) (l : list A) :
  filter p (filter p' l) = filter p' (filter p l).
Proof.
  induction l as [|a l IH]; simpl; [reflexivity|].
  destruct (p a) eqn:E, (p' a) eqn:E'; simpl; rewrite ?E, ?E', IH; reflexivity.
Qed.

(** C8.  Clipping keeps exactly the rows whose [x] and [y] lie within the
    configured closed intervals, in their order, and clipping twice with the
    same bounds gives what clipping once gives; the result is a frame for
    every input, the empty one included. *)
Theorem clip_exact_idempotent (s : ChartSpec) (d : list Joined.t) :
  (forall r, In r (clip s d) <-> In r d /\ x_within s r /\ y_within s r) /\
  clip s d = filter (fun r => in_xdomain s r && in_ydomain s r) d /\
  clip s (clip s d) = clip s d /\
  clip s [] = [].
Proof.
  split; [|split; [|split; [|reflexivity]]].
  - intros r. unfold clip. rewrite !filter_In, in_xdomain_iff, in_ydomain_iff.
    tauto.
  - unfold clip. induction d as [|a d IH]; simpl; [reflexivity|].
    destruct (in_xdomain s a); simpl; [destruct (in_ydomain s a)|]; now rewrite IH.
  - unfold clip.
    rewrite (filter_comm (in_xdomain s) (in_ydomain s) (filter (in_xdomain s) d)).
    now rewrite !filter_idem.
Qed.

Lemma join_groups (q : list Event.t) (d : list Aligned.t) :
  map Joined.group (join q d) = map Aligned.group d.
Proof.
  rewrite join_rowwise. cbv zeta. rewrite map_map. apply map_ext.
  intros a. unfold joined_row, add_slope, merged_row.
  now destruct (lookup Lockdown.group (Aligned.group a) _).
Qed.

Lemma clip_unconfigured (s : ChartSpec) (d : list Joined.t) :
  xdomain s = None -> ydomain s = None -> clip s d = d.
Proof.
  intros Hx Hy. unfold clip.
  assert (E : forall p, (forall r : Joined.t, p r = true) -> filter p d = d).
  { intros p H. induction d as [|a d IH]; simpl; [reflexivity|].
    now rewrite H, IH. }
  rewrite (E (in_xdomain s)), (E (in_ydomain s)); try reflexivity.
  - intros r. unfold in_ydomain. now rewrite Hy.
  - intros r. unfold in_xdomain. now rewrite Hx.
Qed.

(** Without top-k selection and axis domains the frame has the rows of the
    aligned frame plus, with an intervention table, one row per group. *)
Lemma row_count_rows (c : CovidChart) :
  top_k_groups c = None ->
  xdomain (spec c) = None -> ydomain (spec c) = None ->
  List.length (df c) <= List.length (aligned c) ->
  List.length (run c)
  = (List.length (aligned c)
     + match quarantine_df c with
       | None => 0
       | Some _ => List.length (group_keys (map Aligned.group (aligned c)))
       end)%nat /\
  List.length (df c) <= List.length (run c).
Proof.
  intros Hk Hx Hy Hlen.
  assert (E : List.length (run c)
              = (List.length (aligned c)
                 + match quarantine_df c with
                   | None => 0
                   | Some _ => List.length (group_keys (map Aligned.group (aligned c)))
                   end)%nat).
  { unfold output_rows. rewrite clip_unconfigured by assumption.
    destruct (quarantine_df c) as [q|]; cbn.
    - unfold append_new_rows, new_rows.
      rewrite length_app, length_map, join_groups, join_length. reflexivity.
    - rewrite length_map. lia. }
  split; [exact E|]. rewrite E. lia.
Qed.

(** The rows of line 116 have a missing [y] and fail the filter of line
    125. *)
Lemma marker_rows_clipped (c : CovidChart) (q : list Event.t)
        (b : float * float) :
  quarantine_df c = Some q -> ydomain (spec c) = Some b ->
  Forall (fun n => is_nan (Joined.y n) = true /\ in_ydomain (spec c) n = false)
         (new_rows (join q (aligned c))) /\
  run c = clip (spec c) (join q (aligned c)).
Proof.
  intros Hq Hy.
  assert (H : Forall (fun n => is_nan (Joined.y n) = true /\
                               in_ydomain (spec c) n = false)
                     (new_rows (join q (aligned c)))).
  { apply Forall_forall. intros n Hn. unfold new_rows in Hn.
    apply in_map_iff in Hn as [g [<- _]]. split; [reflexivity|].
    unfold in_ydomain. rewrite Hy. destruct b as [lo hi]. cbn.
    now rewrite leb_nan_r. }
  split; [exact H|].
  unfold output_rows. rewrite Hq. unfold append_new_rows, clip.
  rewrite !filter_app.
  set (n := new_rows _) in *.
  assert (E : filter (in_ydomain (spec c)) (filter (in_xdomain (spec c)) n) = []).
  { apply filter_none. intros r Hr. apply filter_In in Hr as [Hr _].
    rewrite Forall_forall in H. now apply H. }
  rewrite E. apply app_nil_r.
Qed.

(** The slope of a row is computed from the row's own columns and is missing
    when the quotient is missing or negative or [lockdown_x] is missing. *)
Lemma slope_rows (c : CovidChart) (r : Joined.t) :
  In r (run c) ->
  Joined.lockdown_slope r
  = slope libm_log libm_exp (Joined.lockdown_y r) (Joined.intercept r)
          (Joined.lockdown_x r) /\
  (is_nan (Joined.lockdown_y r / Joined.intercept r) = true \/
   (Joined.lockdown_y r / Joined.intercept r <? 0) = true \/
   Joined.lockdown_x r = None ->
   is_nan (Joined.lockdown_slope r) = true).
Proof.
  intros Hr.
  assert (Hnan : forall x, slope libm_log libm_exp nan nan x = nan).
  { intros x. unfold slope. change (np_log libm_log (nan / nan)) with nan.
    rewrite div_nan_l. reflexivity. }
  assert (E : Joined.lockdown_slope r
              = slope libm_log libm_exp (Joined.lockdown_y r) (Joined.intercept r)
                      (Joined.lockdown_x r)).
  { unfold output_rows in Hr. apply clip_In in Hr.
    destruct (quarantine_df c) as [q|]; cbn in Hr.
    - apply in_app_or in Hr as [Hr|Hr].
      + now apply join_columns in Hr.
      + unfold new_rows in Hr. apply in_map_iff in Hr as [g [<- _]].
        symmetry. apply Hnan.
    - apply in_map_iff in Hr as [a [<- _]]. symmetry. apply Hnan. }
  split; [exact E|]. rewrite E. unfold slope.
  intros [H|[H|H]].
  - unfold np_log. rewrite H, div_nan_l. reflexivity.
  - unfold np_log. rewrite H.
    destruct (is_nan (Joined.lockdown_y r / Joined.intercept r));
      rewrite div_nan_l; reflexivity.
  - rewrite H. cbn. rewrite div_nan_r. reflexivity.
Qed.
End FrameClaims.

(** ** When [_preprocess_df] returns *)

Section Returns.
Variables libm_log libm_exp : float -> float.
Variable days_between : Z -> Z -> Z.

Lemma with_lockdown_x_Some (q : list Intervention.t) (d : list Aligned.t)
      (l : list Lockdown.t) :
  with_lockdown_x days_between q d = Some l <->
  l = lockdown_rows days_between q d /\ l <> [].
Proof.
  unfold with_lockdown_x.
  destruct (lockdown_rows days_between q d) as [|e l'].
  - split; [discriminate|]. now intros [-> H].
  - split.
    + intros [= <-]. now split.
    + now intros [-> _].
Qed.

Lemma retained_lockdowns_Some (q : list Event.t) (d : list Aligned.t)
      (R : list Lockdown.t) :
  retained_lockdowns days_between q d = Some R <->
  R = retained_rows days_between q d /\
  lockdown_rows days_between (dropna q) d <> [].
Proof.
  unfold retained_lockdowns, retained_rows.
  destruct (with_lockdown_x days_between (dropna q) d) as [l|] eqn:E; cbn.
  - apply with_lockdown_x_Some in E as [-> Hne]. split.
    + intros [= <-]. now split.
    + now intros [-> _].
  - split; [discriminate|]. intros [_ Hne].
    unfold with_lockdown_x in E.
    now destruct (lockdown_rows days_between (dropna q) d).
Qed.

Lemma join_interventions_Some (q : list Event.t) (d : list Aligned.t)
      (j : list Joined.t) :
  join_interventions libm_log libm_exp days_between q d = Some j <->
  j = joined_rows libm_log libm_exp days_between q d /\
  lockdown_rows days_between (dropna q) d <> [].
Proof.
  unfold join_interventions, joined_rows.
  destruct (retained_lockdowns days_between q d) as [R|] eqn:E; cbn.
  - apply retained_lockdowns_Some in E as [-> Hne]. split.
    + intros [= <-]. now split.
    + now intros [-> _].
  - split; [discriminate|]. intros [_ Hne].
    assert (H : retained_lockdowns days_between q d
                = Some (retained_rows days_between q d))
      by now apply retained_lockdowns_Some.
    congruence.
Qed.

(** The pipeline returns a frame exactly when no intervention table is given
    or some complete intervention record belongs to a group of the aligned
    frame; then the frame is [output_rows]. *)
Lemma preprocess_df_Some (c : CovidChart) (out : list Joined.t) :
  preprocess_df libm_log libm_exp days_between c = Some out <->
  out = output_rows libm_log libm_exp days_between c /\
  forall q, quarantine_df c = Some q ->
            lockdown_rows days_between (dropna q) (aligned c) <> [].
Proof.
  unfold preprocess_df, output_rows, interventions.
  destruct (quarantine_df c) as [q|]; cbn.
  - destruct (join_interventions libm_log libm_exp days_between q (aligned c))
      as [j|] eqn:E; cbn.
    + apply join_interventions_Some in E as [-> Hne]. split.
      * intros [= <-]. split; [reflexivity|]. now intros q' [= <-].
      * now intros [-> _].
    + split; [discriminate|]. intros [_ Hne].
      assert (H : join_interventions libm_log libm_exp days_between q (aligned c)
                  = Some (joined_rows libm_log libm_exp days_between q (aligned c))).
      { apply join_interventions_Some. split; [reflexivity|]. now apply Hne. }
      congruence.
  - split.
    + intros [= <-]. split; [reflexivity|]. discriminate.
    + now intros [-> _].
Qed.
End Returns.

(** ** The claims on the intervention join and the returned frame *)

Section Claims.
Variables libm_log libm_exp : float -> float.
Variable days_between : Z -> Z -> Z.

Local Abbreviation run := (preprocess_df libm_log libm_exp days_between).
Local Abbreviation join := (join_interventions libm_log libm_exp days_between).

(** C2.  After the intervention join every group retains at most one
    intervention event: the retained table has one row per group that has a
    qualifying event (a complete record whose offset from an anchor of the
    group is positive), that row is a qualifying event of least [lockdown_x],
    also when the input holds several, and each row of the joined frame
    carries the retained event of its group or missing values when the group
    has none. *)
Theorem earliest_lockdown_retained (q : list Event.t) (d : list Aligned.t)
        (R : list Lockdown.t) (j : list Joined.t) :
  retained_lockdowns days_between q d = Some R ->
  join q d = Some j ->
  NoDup (map Lockdown.group R) /\
  (forall e, In e R ->
     In e (lockdown_rows days_between (dropna q) d) /\
     (0 < Lockdown.lockdown_x e)%Z /\
     forall e', In e' (lockdown_rows days_between (dropna q) d) ->
                Lockdown.group e' = Lockdown.group e ->
                (0 < Lockdown.lockdown_x e')%Z ->
                (Lockdown.lockdown_x e <= Lockdown.lockdown_x e')%Z) /\
  (forall e', In e' (lockdown_rows days_between (dropna q) d) ->
              (0 < Lockdown.lockdown_x e')%Z ->
              exists e, In e R /\ Lockdown.group e = Lockdown.group e') /\
  (forall r, In r j ->
     match lookup Lockdown.group (Joined.group r) R with
     | Some e => In e R /\ Lockdown.group e = Joined.group r /\
                 Joined.lockdown_x r = Some (Lockdown.lockdown_x e) /\
                 Joined.lockdown_type r = Some (Lockdown.lockdown_type e) /\
                 Joined.lockdown_date r = Some (Lockdown.lockdown_date e)
     | None => (forall e, In e R -> Lockdown.group e <> Joined.group r) /\
               Joined.lockdown_x r = None /\ Joined.lockdown_type r = None /\
               Joined.lockdown_date r = None
     end).
Proof.
  intros HR Hj.
  apply retained_lockdowns_Some in HR as [-> _].
  apply join_interventions_Some in Hj as [-> _].
  apply earliest_lockdown_rows.
Qed.

(** C3.  In the returned frame every row whose [lockdown_x] is not missing
    has [lockdown_x > 0]; and when every complete intervention record of a
    group lies at offset [<= 0] from every anchor of the group, all rows of
    the group have missing [lockdown_x], [lockdown_type] and
    [lockdown_date]. *)
Theorem lockdown_x_positive_or_missing (c : CovidChart) (out : list Joined.t) :
  run c = Some out ->
  (forall r v, In r out -> Joined.lockdown_x r = Some v -> (0 < v)%Z) /\
  (forall g,
     (forall q e a, quarantine_df c = Some q -> In e (dropna q) ->
                    In a (aligned c) ->
                    Intervention.group e = g -> Aligned.group a = g ->
                    (days_between (Aligned.date_of_N a)
                                  (Intervention.lockdown_date e) <= 0)%Z) ->
     forall r, In r out -> Joined.group r = g ->
               Joined.lockdown_x r = None /\ Joined.lockdown_type r = None /\
               Joined.lockdown_date r = None).
Proof.
  intros H. apply preprocess_df_Some in H as [-> _]. apply lockdown_x_rows.
Qed.

(** C4, as the code has it.  Line 118 appends to the joined frame, without
    touching its rows, exactly one row for every group of the frame, with or
    without a qualifying event.  The row holds the group key, the
    [lockdown_x] and [lockdown_type] shared by the rows of the group, and [x]
    equal to that [lockdown_x]; every other column is missing.  Hence every
    group with an event has a row whose [x] is its [lockdown_x]. *)
Theorem one_marker_row_per_group (q : list Event.t) (d : list Aligned.t)
        (out : list Joined.t) :
  interventions libm_log libm_exp days_between (Some q) d = Some out ->
  exists j,
    join q d = Some j /\ out = j ++ new_rows j /\
    map Joined.group (new_rows j) = group_keys (map Joined.group j) /\
    NoDup (map Joined.group (new_rows j)) /\
    (forall r, In r j ->
       exists n, In n (new_rows j) /\
         n = Joined.mk (Joined.group r) None nan nan (Joined.lockdown_x r) None None
               (Joined.lockdown_type r) (Joined.lockdown_x r) nan nan nan) /\
    (forall n, In n (new_rows j) ->
       exists r, In r j /\
         n = Joined.mk (Joined.group r) None nan nan (Joined.lockdown_x r) None None
               (Joined.lockdown_type r) (Joined.lockdown_x r) nan nan nan).
Proof.
  unfold interventions. intros H.
  destruct (join q d) as [j|] eqn:E; [|discriminate H].
  injection H as <-. exists j. split; [reflexivity|]. split; [reflexivity|].
  apply join_interventions_Some in E as [-> _]. apply marker_rows_shape.
Qed.

(** C7, as the code has it.  Line 108 is a total elementwise computation on
    the row's own [lockdown_y], [intercept] and [lockdown_x]; the slope of a
    row is missing whenever the quotient [lockdown_y / intercept] is missing
    or negative, or [lockdown_x] is missing. *)
Theorem slope_missing_on_bad_quotient (c : CovidChart) (out : list Joined.t)
        (r : Joined.t) :
  run c = Some out -> In r out ->
  Joined.lockdown_slope r
  = slope libm_log libm_exp (Joined.lockdown_y r) (Joined.intercept r)
          (Joined.lockdown_x r) /\
  (is_nan (Joined.lockdown_y r / Joined.intercept r) = true \/
   (Joined.lockdown_y r / Joined.intercept r <? 0) = true \/
   Joined.lockdown_x r = None ->
   is_nan (Joined.lockdown_slope r) = true).
Proof.
  intros H. apply preprocess_df_Some in H as [-> _]. apply slope_rows.
Qed.

(** C9, as the code has it.  When no top-k selection and no axis domain is
    configured, the returned frame has the rows of the aligned frame plus,
    with an intervention table, one row per group; so it has at least as many
    rows as the input whenever the start criterion returns at least as many
    rows as the input has. *)
Theorem row_count_without_filters (c : CovidChart) (out : list Joined.t) :
  top_k_groups c = None ->
  xdomain (spec c) = None -> ydomain (spec c) = None ->
  List.length (df c) <= List.length (aligned c) ->
  run c = Some out ->
  List.length out
  = (List.length (aligned c)
     + match quarantine_df c with
       | None => 0
       | Some _ => List.length (group_keys (map Aligned.group (aligned c)))
       end)%nat /\
  List.length (df c) <= List.length out.
Proof.
  intros Hk Hx Hy Hlen H. apply preprocess_df_Some in H as [-> _].
  now apply row_count_rows.
Qed.

(** C10.  Every row appended at line 118 has a missing [y] (and a missing
    date, measure, anchor, intercept, [lockdown_y] and slope); so when a
    y-domain is configured no such row passes the filter of line 125 and the
    returned frame is the clipped joined frame. *)
Theorem marker_rows_fail_ydomain (c : CovidChart) (q : list Event.t)
        (b : float * float) (out : list Joined.t) :
  quarantine_df c = Some q -> ydomain (spec c) = Some b ->
  run c = Some out ->
  exists j,
    join q (aligned c) = Some j /\
    Forall (fun n => is_nan (Joined.y n) = true /\ in_ydomain (spec c) n = false)
           (new_rows j) /\
    out = clip (spec c) j.
Proof.
  intros Hq Hy H. apply preprocess_df_Some in H as [-> Hne].
  exists (joined_rows libm_log libm_exp days_between q (aligned c)).
  split.
  - apply join_interventions_Some. split; [reflexivity|]. now apply Hne.
  - now apply (marker_rows_clipped libm_log libm_exp days_between c q b).
Qed.
End Claims.

(** ** The claims on sample charts *)

Lemma sample_returns :
  sample_run sample_chart
  = Some (output_rows no_libm no_libm days_between_spec sample_chart).
Proof. vm_compute. reflexivity. Qed.

Lemma sample_row_B_In :
  In sample_row_B (output_rows no_libm no_libm days_between_spec sample_chart).
Proof. vm_compute. right. left. reflexivity. Qed.

Lemma earliest_lockdown_retained_witness :
  NoDup (map Lockdown.group
           (retained_rows days_between_spec sample_events (aligned sample_chart))).
Proof.
  refine (proj1 (earliest_lockdown_retained no_libm no_libm days_between_spec
                   sample_events (aligned sample_chart)
                   (retained_rows days_between_spec sample_events (aligned sample_chart))
                   (joined_rows no_libm no_libm days_between_spec sample_events
                      (aligned sample_chart)) _ _));
    vm_compute; reflexivity.
Defined.

Lemma lockdown_x_positive_or_missing_witness :
  Forall (fun r => Joined.group r = "B"%string ->
                   Joined.lockdown_x r = None /\ Joined.lockdown_type r = None /\
                   Joined.lockdown_date r = None)
         (output_rows no_libm no_libm days_between_spec sample_chart).
Proof.
  apply Forall_forall. intros r Hr Hg.
  apply (proj2 (lockdown_x_positive_or_missing no_libm no_libm days_between_spec
                  sample_chart _ sample_returns) "B"%string); [|exact Hr|exact Hg].
  intros q e a [= <-] He Ha Hge Hga.
  vm_compute in He.
  destruct He as [<-|[<-|[<-|[]]]]; try discriminate Hge.
  vm_compute in Ha.
  destruct Ha as [<-|[<-|[<-|[<-|[<-|[]]]]]]; try discriminate Hga;
    vm_compute; discriminate.
Defined.

(** On the sample chart region B has no qualifying event and still receives
    an appended row, and the appended row of region A holds missing values
    where the region's last row (date 3, y = 200) holds data. *)
Lemma one_marker_row_per_group_counterexample :
  sample_run sample_chart
  = Some
      [ Joined.mk "A" (Some 1%Z) 50 50 (Some 0%Z) (Some 1%Z)
          (Some 2%Z) (Some "partial"%string) (Some 1%Z) 50 50 1;
        Joined.mk "B" (Some 1%Z) 60 60 (Some 0%Z) (Some 1%Z) None None None 60 nan nan;
        Joined.mk "A" (Some 2%Z) 50 50 (Some 1%Z) (Some 1%Z)
          (Some 2%Z) (Some "partial"%string) (Some 1%Z) 50 50 1;
        Joined.mk "B" (Some 2%Z) 70 70 (Some 1%Z) (Some 1%Z) None None None 60 nan nan;
        Joined.mk "A" (Some 3%Z) 200 200 (Some 2%Z) (Some 1%Z)
          (Some 2%Z) (Some "partial"%string) (Some 1%Z) 50 50 1;
        Joined.mk "A" None nan nan (Some 1%Z) None
          None (Some "partial"%string) (Some 1%Z) nan nan nan;
        Joined.mk "B" None nan nan None None None None None nan nan nan ].
Proof. vm_compute. reflexivity. Qed.

Lemma one_marker_row_per_group_witness :
  exists j,
    join_interventions no_libm no_libm days_between_spec sample_events
      (aligned sample_chart) = Some j /\
    interventions no_libm no_libm days_between_spec (Some sample_events)
      (aligned sample_chart) = Some (j ++ new_rows j).
Proof.
  destruct (one_marker_row_per_group no_libm no_libm days_between_spec
              sample_events (aligned sample_chart)
              (append_new_rows (joined_rows no_libm no_libm days_between_spec
                                  sample_events (aligned sample_chart))))
    as [j [Hj [Hout _]]].
  - vm_compute. reflexivity.
  - exists j. split; [exact Hj|]. rewrite <- Hout. vm_compute. reflexivity.
Defined.

(** An intervention table none of whose records belongs to a group of the
    frame makes line 87 raise. *)
Lemma unmatched_table_raises :
  sample_run {| df := sample_df; quarantine_df := Some [];
                start_criterion := days_since_num_reached 50;
                ycol_is_cumulative := true; top_k_groups := None;
                spec := {| xdomain := None; ydomain := None |} |} = None.
Proof. reflexivity. Qed.

(** With a top-k selection the output is shorter than the input. *)
Lemma row_count_counterexample :
  List.length (df top1_chart) = 5%nat /\
  option_map (@List.length Joined.t) (sample_run top1_chart) = Some 3%nat.
Proof. split; vm_compute; reflexivity. Qed.

Lemma row_count_without_filters_witness :
  List.length (df sample_chart)
  <= List.length (output_rows no_libm no_libm days_between_spec sample_chart).
Proof.
  apply (row_count_without_filters no_libm no_libm days_between_spec sample_chart
           _ eq_refl eq_refl eq_refl);
    [vm_compute; lia|exact sample_returns].
Defined.

Lemma marker_rows_fail_ydomain_witness :
  exists j,
    join_interventions no_libm no_libm days_between_spec sample_events
      (aligned clipped_chart) = Some j /\
    Forall (fun n => is_nan (Joined.y n) = true
                     /\ in_ydomain (spec clipped_chart) n = false) (new_rows j) /\
    output_rows no_libm no_libm days_between_spec clipped_chart
    = clip (spec clipped_chart) j.
Proof.
  apply (marker_rows_fail_ydomain no_libm no_libm days_between_spec
           clipped_chart sample_events (50, 1000000) _ eq_refl eq_refl).
  vm_compute. reflexivity.
Defined.

(** With intercept 0 and [lockdown_y] 5 the slope is infinite, not missing;
    with both equal to -1 it is 1. *)
Lemma slope_counterexample :
  option_map
    (map (fun r => (Joined.intercept r, Joined.lockdown_y r, Joined.lockdown_x r,
                    Joined.lockdown_slope r)))
    (sample_run zero_start_chart)
  = Some [ (0, 5, Some 1%Z, infinity); (0, 5, Some 1%Z, infinity);
           (nan, nan, Some 1%Z, nan) ] /\
  slope no_libm no_libm (-1) (-1) (Some 1%Z) = 1.
Proof. split; vm_compute; reflexivity. Qed.

Lemma slope_missing_on_bad_quotient_witness :
  is_nan (Joined.lockdown_slope sample_row_B) = true.
Proof.
  apply (proj2 (slope_missing_on_bad_quotient no_libm no_libm days_between_spec
                  sample_chart _ sample_row_B sample_returns sample_row_B_In)).
  left. reflexivity.
Defined.

(** ** The cumulative sum, row by row *)

Lemma loc_assign_y_nth (pred : Series.t -> bool) (d : list Series.t) :
  forall (vals : list float) (i : nat) (r0 : Series.t),
    nth_error d i = Some r0 ->
    nth_error (loc_assign_y pred vals d) i
    = Some (if pred r0 then
              match nth_error vals (rank pred d i) with
              | Some v => Series.set_y v r0
              | None => r0
              end
            else r0).
Proof.
  unfold rank. induction d as [|r d IH]; intros vals [|i] r0 H; try discriminate.
  - injection H as ->. simpl. destruct (pred r0); [|reflexivity].
    now destruct vals.
  - simpl in H. simpl. destruct (pred r) eqn:E.
    + destruct vals as [|v vals]; simpl; rewrite (IH _ _ _ H); [|reflexivity].
      destruct (pred r0); [|reflexivity].
      now destruct (List.length (filter pred (firstn i d))).
    + simpl. now rewrite (IH _ _ _ H).
Qed.

Lemma loc_assign_y_skeleton (pred : Series.t -> bool) (d : list Series.t) :
  forall vals, skeleton (loc_assign_y pred vals d) = skeleton d.
Proof.
  unfold skeleton. induction d as [|r d IH]; intros vals; simpl; [reflexivity|].
  destruct (pred r); [destruct vals|]; simpl; now rewrite IH.
Qed.

Lemma skeleton_filter (g : string) (d : list Series.t) :
  map Series.measure (filter (same_group g) d)
  = map Obs.measure (filter (fun o => String.eqb (Obs.group o) g) (skeleton d)).
Proof.
  unfold skeleton, same_group. induction d as [|r d IH]; simpl; [reflexivity|].
  destruct (String.eqb (Series.group r) g); simpl; now rewrite IH.
Qed.

Lemma skeleton_rank (g : string) (d : list Series.t) (i : nat) :
  rank (same_group g) d i
  = rank (fun o => String.eqb (Obs.group o) g) (skeleton d) i.
Proof.
  unfold rank, skeleton, same_group. revert i.
  induction d as [|r d IH]; intros [|i]; simpl; try reflexivity.
  destruct (String.eqb (Series.group r) g); simpl; now rewrite IH.
Qed.

Lemma cumsum_length (l : list float) : List.length (cumsum l) = List.length l.
Proof.
  unfold cumsum. rewrite length_map, length_combine.
  assert (E : forall a t, List.length (np_cumsum_from a t) = List.length t).
  { intros a t. revert a. induction t as [|v t IH]; intros a; simpl; [reflexivity|].
    now rewrite IH. }
  unfold np_cumsum. destruct l as [|v t]; [reflexivity|].
  cbn [map List.length]. rewrite E, length_map. lia.
Qed.

Lemma rank_lt {A : Type} (p : A -> bool) (d : list A) (i : nat) (a : A) :
  nth_error d i = Some a -> p a = true ->
  rank p d i < List.length (filter p d).
Proof.
  unfold rank. revert i. induction d as [|b d IH]; intros [|i] H Hp; try discriminate.
  - injection H as ->. simpl. rewrite Hp. simpl. lia.
  - simpl in H. simpl. specialize (IH _ H Hp).
    destruct (p b); simpl; lia.
Qed.

Lemma cumulate_nth (keys : list string) :
  forall (d : list Series.t) (i : nat) (r0 : Series.t),
    NoDup keys -> nth_error d i = Some r0 ->
    nth_error (fold_left cumulate_group keys d) i
    = Some (if existsb (String.eqb (Series.group r0)) keys
            then Series.set_y (running_sum (skeleton d) i (Series.group r0)) r0
            else r0).
Proof.
  induction keys as [|g keys IH]; intros d i r0 Hnd H; simpl; [exact H|].
  inversion Hnd as [|? ? Hg Hnd']; subst.
  assert (H1 := loc_assign_y_nth (same_group g)  d
                  (cumsum (map Series.measure (filter (same_group g) d))) i r0 H).
  change (cumulate_group d g)
    with (loc_assign_y (same_group g)
            (cumsum (map Series.measure (filter (same_group g) d))) d).
  destruct (String.eqb_spec (Series.group r0) g) as [E|E].
  - assert (Hs : same_group g r0 = true) by (now apply String.eqb_eq).
    assert (Hlt : rank (same_group g) d i
                  < List.length (cumsum (map Series.measure (filter (same_group g) d)))).
    { rewrite cumsum_length, length_map. now apply (rank_lt _ _ _ r0 H). }
    apply nth_error_Some in Hlt.
    destruct (nth_error _ (rank (same_group g) d i)) as [v|] eqn:Ev; [|easy].
    rewrite Hs in H1. rewrite (IH _ _ _ Hnd' H1).
    assert (Hn : existsb (String.eqb (Series.group r0)) keys = false).
    { apply not_true_is_false. intros Hex. apply existsb_exists in Hex as [k [Hk Ek]].
      apply String.eqb_eq in Ek. apply Hg. congruence. }
    cbn [Series.group Series.set_y]. rewrite Hn. cbn [orb]. do 2 f_equal.
    unfold running_sum. rewrite E, <- skeleton_filter, <- skeleton_rank.
    symmetry. now apply nth_error_nth.
  - assert (Hs : same_group g r0 = false) by (now apply String.eqb_neq).
    rewrite Hs in H1. rewrite (IH _ _ _ Hnd' H1).
    rewrite loc_assign_y_skeleton. reflexivity.
Qed.

Lemma existsb_In (g : string) (keys : list string) :
  In g keys -> existsb (String.eqb g) keys = true.
Proof.
  intros H. apply existsb_exists. exists g. split; [assumption|apply String.eqb_refl].
Qed.

Lemma add_y_nth (df : list Obs.t) (i : nat) (o : Obs.t) :
  nth_error df i = Some o ->
  nth_error (add_y false df) i
  = Some (Series.mk (Obs.group o) (Obs.date o) (Obs.measure o)
            (running_sum df i (Obs.group o))).
Proof.
  intros H. unfold add_y, cumulate.
  set (d0 := map _ df).
  assert (H0 : nth_error d0 i
               = Some (Series.mk (Obs.group o) (Obs.date o) (Obs.measure o) 0)).
  { unfold d0. now rewrite nth_error_map, H. }
  rewrite (cumulate_nth _ _ _ _ (NoDup_unique _) H0).
  rewrite existsb_In.
  - assert (E : skeleton d0 = df).
    { unfold d0, skeleton. rewrite map_map. cbn.
      rewrite <- (map_id df) at 2. apply map_ext. now intros [g d m]. }
    rewrite E. reflexivity.
  - apply In_unique. apply in_map_iff.
    exists (Series.mk (Obs.group o) (Obs.date o) (Obs.measure o) 0).
    split; [reflexivity|]. eapply nth_error_In, H0.
Qed.

(** ** The running sum in date order *)

Lemma sort_by_date_sorted (l : list Obs.t) :
  StronglySorted date_lt l -> sort_by_date l = l.
Proof.
  induction 1 as [|a l Hs IH Ha]; simpl; [reflexivity|].
  rewrite IH. destruct l as [|h t]; [reflexivity|]. simpl.
  inversion Ha as [|? ? Hh _]; subst. unfold date_lt in Hh.
  destruct (Z.ltb_spec (Obs.date h) (Obs.date a)); [lia|reflexivity].
Qed.

Lemma sorted_middle (l1 l2 : list Obs.t) (a : Obs.t) :
  StronglySorted date_lt (l1 ++ a :: l2) ->
  StronglySorted date_lt (l1 ++ [a]) /\
  Forall (fun b => date_lt b a) l1 /\ Forall (date_lt a) l2.
Proof.
  induction l1 as [|b l1 IH]; simpl; intros H.
  - inversion H; subst. repeat split; auto. repeat constructor.
  - inversion H as [|? ? Hs Hb]; subst.
    destruct (IH Hs) as [H1 [H2 H3]].
    rewrite Forall_app in Hb. destruct Hb as [Hb1 Hb2].
    inversion Hb2; subst.
    repeat split; auto. constructor; [assumption|].
    apply Forall_app. split; [assumption|]. now constructor.
Qed.

Lemma np_cumsum_from_firstn (n : nat) (l : list float) :
  forall a, firstn n (np_cumsum_from a l) = np_cumsum_from a (firstn n l).
Proof.
  revert n. induction l as [|v l IH]; intros [|n] a; simpl; try reflexivity.
  now rewrite IH.
Qed.

Lemma cumsum_firstn (n : nat) (l : list float) :
  firstn n (cumsum l) = cumsum (firstn n l).
Proof.
  unfold cumsum. rewrite firstn_map, combine_firstn. do 2 f_equal.
  rewrite <- firstn_map. set (l' := map _ l).
  destruct l' as [|v t], n as [|n]; simpl; try reflexivity.
  now rewrite np_cumsum_from_firstn.
Qed.

Lemma cumsum_nth_last (l1 l2 : list float) (v : float) :
  nth (List.length l1) (cumsum (l1 ++ v :: l2)) nan
  = last (cumsum (l1 ++ [v])) nan.
Proof.
  assert (E : firstn (S (List.length l1)) (l1 ++ v :: l2) = l1 ++ [v]).
  { replace (S (List.length l1)) with (List.length l1 + 1)%nat by lia.
    now rewrite firstn_app_2. }
  rewrite <- E, <- cumsum_firstn.
  set (c := cumsum (l1 ++ v :: l2)).
  assert (Hc : List.length l1 < List.length c).
  { unfold c. rewrite cumsum_length, length_app. simpl. lia. }
  clearbody c. clear E. revert c Hc.
  induction (List.length l1) as [|n IH]; intros [|x c] Hc; simpl in *; try lia.
  - now destruct c.
  - rewrite (IH c) by lia. destruct c as [|x' c]; [simpl in Hc; lia|].
    reflexivity.
Qed.

Lemma filter_cons_true {A : Type} (p : A -> bool) (a : A) (l : list A) :
  p a = true -> filter p (a :: l) = a :: filter p l.
Proof. intros H. simpl. now rewrite H. Qed.

Lemma running_sum_in_date_order (df : list Obs.t) (i : nat) (o : Obs.t) :
  dates_increasing df -> nth_error df i = Some o ->
  running_sum df i (Obs.group o) = running_sum_by_date df o.
Proof.
  intros Hs H. specialize (Hs (Obs.group o)).
  destruct (nth_error_split _ _ H) as [l1 [l2 [-> Hlen]]].
  unfold running_sum, running_sum_by_date, rank.
  set (q := fun r => String.eqb (Obs.group r) (Obs.group o)
                     && (Obs.date r <=? Obs.date o)%Z).
  set (p := fun r => String.eqb (Obs.group r) (Obs.group o)) in *.
  assert (Hqp : forall r, q r = p r && (Obs.date r <=? Obs.date o)%Z)
    by reflexivity.
  assert (Hp : p o = true) by apply String.eqb_refl.
  rewrite filter_app, (filter_cons_true p o l2 Hp) in Hs.
  destruct (sorted_middle _ _ _ Hs) as [Hsorted [Hbefore Hafter]].
  assert (E1 : filter q l1 = filter p l1).
  { clear - Hbefore Hqp. induction l1 as [|b l1 IH]; simpl in *; [reflexivity|].
    rewrite Hqp. destruct (p b) eqn:Eb; simpl.
    - inversion Hbefore as [|? ? Hb Hrest]; subst. unfold date_lt in Hb.
      destruct (Z.leb_spec (Obs.date b) (Obs.date o)); [|lia].
      now rewrite IH.
    - now apply IH. }
  assert (E2 : filter q l2 = []).
  { apply filter_none. intros b Hb. rewrite Hqp.
    destruct (p b) eqn:Eb; [|reflexivity]. simpl.
    rewrite Forall_forall in Hafter.
    assert (Hin : In b (filter p l2)) by (apply filter_In; auto).
    apply Hafter in Hin. unfold date_lt in Hin.
    destruct (Z.leb_spec (Obs.date b) (Obs.date o)); [lia|reflexivity]. }
  assert (Hq : q o = true).
  { rewrite Hqp, Hp. simpl. apply Z.leb_refl. }
  rewrite !filter_app, (filter_cons_true p o l2 Hp), (filter_cons_true q o l2 Hq).
  rewrite E1, E2.
  rewrite (sort_by_date_sorted _ Hsorted).
  rewrite <- Hlen, firstn_app, Nat.sub_diag, firstn_all, firstn_O, app_nil_r.
  rewrite !map_app. simpl.
  rewrite <- (length_map Obs.measure (filter p l1)).
  apply cumsum_nth_last.
Qed.

(** C6, as the code has it.  With a cumulative measure [y] is the raw
    measure of the row.  Otherwise [y] is the running sum of the raw measure
    over the rows of the row's group in the order of the table; it is the
    running sum in date order when the rows of every group appear in
    strictly increasing date order. *)
Theorem y_is_running_sum (df : list Obs.t) (i : nat) (o : Obs.t) :
  nth_error df i = Some o ->
  nth_error (add_y true df) i
  = Some (Series.mk (Obs.group o) (Obs.date o) (Obs.measure o) (Obs.measure o)) /\
  nth_error (add_y false df) i
  = Some (Series.mk (Obs.group o) (Obs.date o) (Obs.measure o)
            (running_sum df i (Obs.group o))) /\
  (dates_increasing df ->
   nth_error (add_y false df) i
   = Some (Series.mk (Obs.group o) (Obs.date o) (Obs.measure o)
             (running_sum_by_date df o))).
Proof.
  intros H. split; [|split].
  - unfold add_y. now rewrite nth_error_map, H.
  - now apply add_y_nth.
  - intros Hs. rewrite (add_y_nth _ _ _ H).
    now rewrite (running_sum_in_date_order df i o Hs H).
Qed.

(** The loop gives the day-2 row the sum 1 and the day-1 row the sum 11; in
    date order the sums are 11 on day 2 and 10 on day 1. *)
Lemma y_is_running_sum_counterexample :
  map Series.y (add_y false unordered_df) = [1; 11] /\
  map (running_sum_by_date unordered_df) unordered_df = [11; 10].
Proof. split; vm_compute; reflexivity. Qed.

Lemma sample_dates_increasing : dates_increasing sample_df.
Proof.
  intros g. unfold sample_df. cbn [filter Obs.group].
  destruct (String.eqb_spec "A" g), (String.eqb_spec "B" g); try congruence;
    repeat first [ apply SSorted_nil | apply SSorted_cons | apply Forall_nil
                 | apply Forall_cons | (unfold date_lt; simpl; lia) ].
Qed.

Lemma y_is_running_sum_witness :
  nth_error (add_y false sample_df) 3
  = Some (Series.mk "B" 2 70 (running_sum_by_date sample_df (Obs.mk "B" 2 70))).
Proof.
  exact (proj2 (proj2 (y_is_running_sum sample_df 3 (Obs.mk "B" 2 70) eq_refl))
               sample_dates_increasing).
Defined.

(** ** The order of non-missing floats *)

Lemma SFcompare_key (f1 f2 : spec_float) :
  f1 <> S754_nan -> f2 <> S754_nan ->
  exists c, SFcompare f1 f2 = Some c /\
            (c = Lt <-> key_lt (sf_key f1) (sf_key f2)) /\
            (c = Eq <-> sf_key f1 = sf_key f2).
Proof.
  intros H1 H2.
  destruct f1 as [s1|s1| |s1 m1 e1], f2 as [s2|s2| |s2 m2 e2]; try congruence;
    try (destruct s1); try (destruct s2); cbn;
    try (eexists; split; [reflexivity|]; split; split; intros Hk;
         try discriminate Hk; try reflexivity; try lia; fail).
  - eexists; split; [reflexivity|].
    change (PosDef.Pos.compare_cont Eq m1 m2) with (Pos.compare m1 m2).
    destruct (Z.compare_spec e1 e2) as [He|He|He],
             (Pos.compare_spec m1 m2) as [Hm|Hm|Hm]; subst; cbn;
      split; split; intros Hk; try discriminate Hk; try reflexivity;
      try lia; try (injection Hk; lia).
  - eexists; split; [reflexivity|].
    change (PosDef.Pos.compare_cont Eq m1 m2) with (Pos.compare m1 m2).
    destruct (Z.compare_spec e1 e2) as [He|He|He],
             (Pos.compare_spec m1 m2) as [Hm|Hm|Hm]; subst; cbn;
      split; split; intros Hk; try discriminate Hk; try reflexivity;
      try lia; try (injection Hk; lia).
Qed.

Lemma notna_Prim2SF (v : float) : notna v = true -> Prim2SF v <> S754_nan.
Proof.
  unfold notna, is_nan. rewrite negb_involutive, eqb_spec. intros H E.
  rewrite E in H. discriminate H.
Qed.

Lemma ltb_key (a b : float) :
  notna a = true -> notna b = true ->
  ((a <? b) = true <-> key_lt (fkey a) (fkey b)).
Proof.
  intros Ha Hb. rewrite ltb_spec. unfold SFltb, fkey.
  destruct (SFcompare_key _ _ (notna_Prim2SF a Ha) (notna_Prim2SF b Hb))
    as [c [-> [H _]]].
  rewrite <- H. destruct c; split; congruence.
Qed.

Lemma eqb_key (a b : float) :
  notna a = true -> notna b = true ->
  ((a =? b) = true <-> fkey a = fkey b).
Proof.
  intros Ha Hb. rewrite eqb_spec. unfold SFeqb, fkey.
  destruct (SFcompare_key _ _ (notna_Prim2SF a Ha) (notna_Prim2SF b Hb))
    as [c [-> [_ H]]].
  rewrite <- H. destruct c; split; congruence.
Qed.

Lemma key_total (a b : Z * Z * Z) : key_lt a b \/ a = b \/ key_lt b a.
Proof.
  destruct a as [[a1 a2] a3], b as [[b1 b2] b3]. unfold key_lt.
  destruct (Z.lt_trichotomy a1 b1) as [H|[H|H]]; [lia| |lia].
  destruct (Z.lt_trichotomy a2 b2) as [H'|[H'|H']]; [lia| |lia].
  destruct (Z.lt_trichotomy a3 b3) as [H''|[H''|H'']]; [lia| |lia].
  right. left. congruence.
Qed.

Lemma key_lt_trans (a b c : Z * Z * Z) : key_lt a b -> key_lt b c -> key_lt a c.
Proof.
  destruct a as [[a1 a2] a3], b as [[b1 b2] b3], c as [[c1 c2] c3].
  unfold key_lt. lia.
Qed.

(** ** Sorted group keys *)

Lemma compare_as_OT (a b : string) : String.compare a b = String_as_OT.compare a b.
Proof.
  reflexivity.
Qed.

Lemma str_lt_trans (a b c : string) : str_lt a b -> str_lt b c -> str_lt a c.
Proof.
  unfold str_lt, String.ltb. intros H1 H2.
  rewrite compare_as_OT in H1, H2 |- *.
  destruct (String_as_OT.compare a b) eqn:E1; try discriminate H1.
  destruct (String_as_OT.compare b c) eqn:E2; try discriminate H2.
  assert (H : String_as_OT.lt a c).
  { apply (@StrictOrder_Transitive _ _ String_as_OT.lt_strorder a b c);
      [exact E1|exact E2]. }
  unfold String_as_OT.lt in H. now rewrite H.
Qed.

Lemma leb_neq_lt (a b : string) : String.leb a b = true -> a <> b -> str_lt a b.
Proof.
  unfold str_lt, String.leb, String.ltb.
  destruct (String.compare a b) eqn:E; try easy.
  intros _ H. now apply String.compare_eq_iff in E.
Qed.

Lemma not_leb_lt (a b : string) : String.leb a b = false -> str_lt b a.
Proof.
  unfold str_lt, String.leb, String.ltb. rewrite (String.compare_antisym b a).
  now destruct (String.compare a b).
Qed.

Lemma insert_key_sorted (k : string) (l : list string) :
  StronglySorted str_lt l -> ~ In k l -> StronglySorted str_lt (insert_key k l).
Proof.
  induction 1 as [|h t Hs IH Hh]; intros Hk; simpl.
  - repeat constructor.
  - assert (Hkh : k <> h) by (intros ->; apply Hk; now left).
    assert (Hkt : ~ In k t) by (intros Hin; apply Hk; now right).
    destruct (String.leb k h) eqn:E.
    + pose proof (leb_neq_lt k h E Hkh) as Hlt.
      constructor; [now constructor|]. constructor; [assumption|].
      eapply Forall_impl; [|exact Hh]. intros z Hz. eapply str_lt_trans; eassumption.
    + constructor; [now apply IH|].
      apply Forall_forall. intros z Hz.
      apply (Permutation_in _ (insert_key_perm k t)) in Hz as [<-|Hz].
      * now apply not_leb_lt.
      * rewrite Forall_forall in Hh. now apply Hh.
Qed.

Lemma sort_keys_sorted (l : list string) :
  NoDup l -> StronglySorted str_lt (sort_keys l).
Proof.
  induction 1 as [|a l Ha Hnd IH]; simpl; [constructor|].
  apply insert_key_sorted; [assumption|].
  intros Hin. apply Ha. eapply Permutation_in; [apply sort_keys_perm|exact Hin].
Qed.

Lemma group_keys_sorted (col : list string) : StronglySorted str_lt (group_keys col).
Proof. apply sort_keys_sorted, NoDup_unique. Qed.

(** ** The ranking of [nlargest] *)

Lemma insert_desc_perm (x : string * float) (l : list (string * float)) :
  Permutation (insert_desc x l) (x :: l).
Proof.
  induction l as [|h t IH]; simpl; [reflexivity|].
  destruct (snd x <? snd h); [|reflexivity].
  rewrite IH. apply perm_swap.
Qed.

Lemma sort_desc_perm (l : list (string * float)) : Permutation (sort_desc l) l.
Proof.
  induction l as [|h t IH]; simpl; [reflexivity|].
  rewrite insert_desc_perm. now constructor.
Qed.

Lemma insert_desc_sorted (x : string * float) (l : list (string * float)) :
  notna (snd x) = true ->
  Forall (fun z => notna (snd z) = true /\ str_lt (fst x) (fst z)) l ->
  StronglySorted ranks_before l ->
  StronglySorted ranks_before (insert_desc x l).
Proof.
  intros Hx Hl Hs. induction Hs as [|h t Hs IH Hh]; simpl.
  - repeat constructor.
  - inversion Hl as [|? ? [Hnh Hkh] Hl']; subst.
    destruct (snd x <? snd h) eqn:E.
    + constructor; [now apply IH|].
      apply Forall_forall. intros z Hz.
      apply (Permutation_in _ (insert_desc_perm x t)) in Hz as [<-|Hz].
      * now left.
      * rewrite Forall_forall in Hh. now apply Hh.
    + constructor; [now constructor|].
      assert (Hle : ~ key_lt (fkey (snd x)) (fkey (snd h))).
      { intros H. apply (ltb_key _ _ Hx Hnh) in H. congruence. }
      assert (Hrank : forall z, notna (snd z) = true -> str_lt (fst x) (fst z) ->
                                ~ key_lt (fkey (snd x)) (fkey (snd z)) ->
                                ranks_before x z).
      { intros z Hnz Hkz Hnlt.
        destruct (key_total (fkey (snd x)) (fkey (snd z))) as [H|[H|H]].
        - contradiction.
        - right. split; [now apply eqb_key|exact Hkz].
        - left. now apply ltb_key. }
      constructor; [now apply Hrank|].
      rewrite Forall_forall in *. intros z Hz.
      destruct (Hl' z Hz) as [Hnz Hkz]. apply Hrank; try assumption.
      intros H. apply Hle.
      destruct (Hh z Hz) as [Hzh|[Hzh _]].
      * apply (ltb_key _ _ Hnz Hnh) in Hzh. eapply key_lt_trans; eassumption.
      * apply (eqb_key _ _ Hnh Hnz) in Hzh. now rewrite Hzh.
Qed.

Lemma sort_desc_sorted (l : list (string * float)) :
  StronglySorted str_lt (map fst l) ->
  Forall (fun z => notna (snd z) = true) l ->
  StronglySorted ranks_before (sort_desc l).
Proof.
  induction l as [|x l IH]; simpl; intros Hs Hn; [constructor|].
  inversion Hs as [|? ? Hs' Hx]; subst. inversion Hn as [|? ? Hnx Hn']; subst.
  apply insert_desc_sorted; [assumption| |now apply IH].
  apply Forall_forall. intros z Hz.
  apply (Permutation_in _ (sort_desc_perm l)) in Hz.
  rewrite Forall_forall in Hn', Hx. split; [now apply Hn'|].
  apply Hx. now apply in_map.
Qed.

(** ** Top-k selection *)

Lemma NoDup_firstn {A : Type} (n : nat) (l : list A) :
  NoDup l -> NoDup (firstn n l).
Proof.
  intros H. rewrite <- (firstn_skipn n l) in H.
  now apply NoDup_app_remove_r in H.
Qed.

Lemma sorted_map_filter {A B : Type} (R : B -> B -> Prop) (f : A -> B)
      (p : A -> bool) (l : list A) :
  StronglySorted R (map f l) -> StronglySorted R (map f (filter p l)).
Proof.
  induction l as [|a l IH]; simpl; intros H; [constructor|].
  inversion H as [|? ? Hs Ha]; subst.
  destruct (p a); simpl; [|auto].
  constructor; [auto|].
  rewrite Forall_forall in *. intros b Hb. apply Ha.
  apply in_map_iff in Hb as [c [<- Hc]].
  apply filter_In in Hc as [Hc _]. now apply in_map.
Qed.

Lemma sorted_app_all {A : Type} (R : A -> A -> Prop) (l1 l2 : list A) :
  StronglySorted R (l1 ++ l2) ->
  forall a b, In a l1 -> In b l2 -> R a b.
Proof.
  induction l1 as [|x l1 IH]; simpl; intros H a b Ha Hb; [easy|].
  inversion H as [|? ? Hs Hx]; subst.
  destruct Ha as [<-|Ha].
  - rewrite Forall_forall in Hx. apply Hx, in_or_app. now right.
  - now apply (IH Hs).
Qed.

Lemma fold_max_notna (vs : list float) :
  forall a, notna a = true -> Forall (fun v => notna v = true) vs ->
            notna (fold_left (fun m v => if m <? v then v else m) vs a) = true.
Proof.
  induction vs as [|v vs IH]; intros a Ha Hvs; simpl; [assumption|].
  inversion Hvs; subst. apply IH; [|assumption]. now destruct (a <? v).
Qed.

Lemma float_max_notna (vals : list float) :
  notna (float_max vals) = existsb notna vals.
Proof.
  unfold float_max.
  assert (E : existsb notna vals
              = match filter notna vals with [] => false | _ => true end).
  { induction vals as [|v vals IH]; simpl; [reflexivity|].
    destruct (notna v); simpl; [reflexivity|exact IH]. }
  rewrite E.
  destruct (filter notna vals) as [|v vs] eqn:Ef; [reflexivity|].
  apply fold_max_notna; [reflexivity|].
  rewrite <- Ef. apply Forall_forall. intros x Hx.
  now apply filter_In in Hx.
Qed.

Lemma group_max_notna (df : list Series.t) (g : string) :
  notna (group_max df g) = has_y df g.
Proof.
  unfold group_max, has_y. rewrite float_max_notna.
  induction df as [|r df IH]; simpl; [reflexivity|].
  destruct (String.eqb (Series.group r) g); simpl; now rewrite IH.
Qed.

Lemma groupby_max_keys (df : list Series.t) :
  map fst (groupby_max df) = group_keys (map Series.group df).
Proof. unfold groupby_max. rewrite map_map. apply map_id. Qed.

Lemma groupby_max_In (df : list Series.t) (e : string * float) :
  In e (groupby_max df) <->
  In (fst e) (map Series.group df) /\ snd e = group_max df (fst e).
Proof.
  unfold groupby_max. rewrite in_map_iff. split.
  - intros [g [<- Hg]]. apply (proj1 (In_group_keys _ _)) in Hg. now split.
  - intros [Hg He]. exists (fst e). split.
    + destruct e as [g v]. simpl in *. now rewrite He.
    + now apply In_group_keys.
Qed.

Lemma ranked_In (df : list Series.t) (e : string * float) :
  In e (ranked df) <->
  In (fst e) (map Series.group df) /\ snd e = group_max df (fst e) /\
  has_y df (fst e) = true.
Proof.
  unfold ranked. rewrite filter_In, groupby_max_In. split.
  - intros [[H1 H2] H3]. rewrite H2, group_max_notna in H3. auto.
  - intros [H1 [H2 H3]]. rewrite H2, group_max_notna. auto.
Qed.

Lemma ranked_sorted (df : list Series.t) :
  StronglySorted ranks_before (sort_desc (ranked df)).
Proof.
  apply sort_desc_sorted.
  - unfold ranked. apply sorted_map_filter. rewrite groupby_max_keys.
    apply group_keys_sorted.
  - apply Forall_forall. intros e He. unfold ranked in He.
    now apply filter_In in He.
Qed.

Lemma unranked_In (df : list Series.t) (e : string * float) :
  In e (unranked df) <->
  In (fst e) (map Series.group df) /\ snd e = group_max df (fst e) /\
  has_y df (fst e) = false.
Proof.
  unfold unranked. rewrite filter_In, groupby_max_In.
  assert (E : forall v, is_nan v = true <-> notna v = false)
    by (intros v; unfold notna; now destruct (is_nan v)).
  split.
  - intros [[H1 H2] H3]. apply E in H3. rewrite H2, group_max_notna in H3. auto.
  - intros [H1 [H2 H3]]. rewrite E, H2, group_max_notna. auto.
Qed.

Lemma filter_split_perm {A : Type} (p q : A -> bool) (l : list A) :
  (forall a, q a = negb (p a)) -> Permutation (filter p l ++ filter q l) l.
Proof.
  intros H. induction l as [|a l IH]; [constructor|].
  cbn [filter]. rewrite (H a). destruct (p a); cbn [negb app].
  - now constructor.
  - symmetry. apply Permutation_cons_app. now symmetry.
Qed.

Lemma selection_order_perm (df : list Series.t) :
  Permutation (selection_order df) (groupby_max df).
Proof.
  unfold selection_order. rewrite sort_desc_perm. unfold ranked, unranked.
  apply filter_split_perm. intros [g v]. unfold notna. cbn.
  now destruct (is_nan v).
Qed.

Lemma selection_order_In (df : list Series.t) (e : string * float) :
  In e (selection_order df) <->
  In (fst e) (map Series.group df) /\ snd e = group_max df (fst e).
Proof.
  rewrite <- groupby_max_In. split; apply Permutation_in;
    [apply selection_order_perm|symmetry; apply selection_order_perm].
Qed.

Lemma selection_order_NoDup (df : list Series.t) :
  NoDup (map fst (selection_order df)).
Proof.
  eapply Permutation_NoDup.
  - symmetry. apply Permutation_map, selection_order_perm.
  - rewrite groupby_max_keys. apply NoDup_group_keys.
Qed.

Lemma selection_order_length (df : list Series.t) :
  List.length (selection_order df)
  = List.length (unique (map Series.group df)).
Proof.
  rewrite (Permutation_length (selection_order_perm df)).
  rewrite <- (length_map fst), groupby_max_keys.
  apply Permutation_length, sort_keys_perm.
Qed.

Lemma sorted_in_impl {A : Type} (R R' : A -> A -> Prop) (l : list A) :
  (forall a b, In a l -> In b l -> R a b -> R' a b) ->
  StronglySorted R l -> StronglySorted R' l.
Proof.
  intros H Hs. induction Hs as [|a l Hs IH Ha]; constructor.
  - apply IH. intros x y Hx Hy. apply H; now right.
  - rewrite Forall_forall in *. intros b Hb.
    apply H; [now left|now right|now apply Ha].
Qed.

Lemma sorted_of_map {A B : Type} (R : B -> B -> Prop) (f : A -> B) (l : list A) :
  StronglySorted R (map f l) -> StronglySorted (fun a b => R (f a) (f b)) l.
Proof.
  induction l as [|a l IH]; cbn [map]; intros H; constructor;
    inversion H as [|? ? Hs Ha]; subst.
  - now apply IH.
  - rewrite Forall_forall in *. intros b Hb. apply Ha. now apply in_map.
Qed.

Lemma sorted_app {A : Type} (R : A -> A -> Prop) (l1 l2 : list A) :
  StronglySorted R l1 -> StronglySorted R l2 ->
  (forall a b, In a l1 -> In b l2 -> R a b) ->
  StronglySorted R (l1 ++ l2).
Proof.
  intros H1 H2 H. induction H1 as [|a l1 Hs IH Ha]; [exact H2|].
  cbn [app]. constructor.
  - apply IH. intros x y Hx Hy. apply H; [now right|assumption].
  - rewrite Forall_forall in *. intros b Hb.
    apply in_app_or in Hb as [Hb|Hb]; [now apply Ha|].
    apply H; [now left|assumption].
Qed.

(** [nlargest] takes the groups in the order of [takes_before]. *)
Lemma selection_order_sorted (df : list Series.t) :
  StronglySorted (fun a b => takes_before df (fst a) (fst b)) (selection_order df).
Proof.
  unfold selection_order.
  assert (H1 : forall e, In e (sort_desc (ranked df)) -> In e (ranked df))
    by (intros e; apply Permutation_in, sort_desc_perm).
  apply sorted_app.
  - apply (sorted_in_impl ranks_before); [|apply ranked_sorted].
    intros a b Ha Hb Hab.
    apply H1, ranked_In in Ha as (_ & Ea & Ya).
    apply H1, ranked_In in Hb as (_ & Eb & Yb).
    unfold takes_before. rewrite Ya, Yb, <- Ea, <- Eb, <- !surjective_pairing.
    exact Hab.
  - apply (sorted_in_impl (fun a b => str_lt (fst a) (fst b))).
    + intros a b Ha Hb Hab.
      apply unranked_In in Ha as (_ & _ & Ya).
      apply unranked_In in Hb as (_ & _ & Yb).
      unfold takes_before. now rewrite Ya, Yb.
    + apply sorted_of_map. unfold unranked. apply sorted_map_filter.
      rewrite groupby_max_keys. apply group_keys_sorted.
  - intros a b Ha Hb.
    apply H1, ranked_In in Ha as (_ & _ & Ya).
    apply unranked_In in Hb as (_ & _ & Yb).
    unfold takes_before. now rewrite Ya, Yb.
Qed.

Lemma top_groups_eq (k : Z) (df : list Series.t) :
  top_groups k df
  = if (k <=? 0)%Z then []
    else map fst (firstn (Z.to_nat k) (selection_order df)).
Proof. unfold top_groups, nlargest. now destruct (k <=? 0)%Z. Qed.

Lemma firstn_incl {A : Type} (n : nat) (l : list A) (a : A) :
  In a (firstn n l) -> In a l.
Proof.
  intros H. rewrite <- (firstn_skipn n l). apply in_or_app. now left.
Qed.

Lemma top_groups_spec (k : Z) (df : list Series.t) :
  NoDup (top_groups k df) /\
  List.length (top_groups k df)
  = Nat.min (Z.to_nat k) (List.length (unique (map Series.group df))) /\
  (forall g, In g (top_groups k df) -> In g (map Series.group df)) /\
  (forall g h, In g (top_groups k df) -> In h (map Series.group df) ->
               ~ In h (top_groups k df) -> takes_before df g h).
Proof.
  rewrite top_groups_eq. destruct (Z.leb_spec k 0) as [Hk|Hk].
  - replace (Z.to_nat k) with 0%nat by lia.
    repeat split; try constructor; try easy.
  - set (n := Z.to_nat k). set (S := selection_order df).
    split; [|split; [|split]].
    + rewrite <- firstn_map. apply NoDup_firstn, selection_order_NoDup.
    + rewrite length_map, length_firstn. unfold S.
      now rewrite selection_order_length.
    + intros g Hg. apply in_map_iff in Hg as [e [<- He]].
      now apply firstn_incl, selection_order_In in He.
    + intros g h Hg Hh Hnot.
      apply in_map_iff in Hg as [e [<- He]].
      assert (Hin : In (h, group_max df h) S).
      { apply selection_order_In. auto. }
      rewrite <- (firstn_skipn n S) in Hin.
      apply in_app_or in Hin as [Hin|Hin].
      * exfalso. apply Hnot. apply in_map_iff. now exists (h, group_max df h).
      * change h with (fst (h, group_max df h)).
        apply (sorted_app_all (fun a b => takes_before df (fst a) (fst b))
                 (firstn n S) (skipn n S)); [|assumption|assumption].
        rewrite firstn_skipn. apply selection_order_sorted.
Qed.

(** C5, as the code has it.  With [top_k_groups = K] the output keeps the
    rows of [min(max(K,0), G)] groups, [G] being the number of distinct
    groups.  A retained group that has a [y] ranks before every other group
    that has one when groups are ranked by descending maximum [y], ties
    broken by ascending group key (the order of [groupby]); a group whose
    [y] are all missing is retained only when every group left out is of
    that kind and has a greater key. *)
Theorem top_k_by_peak (df : list Series.t) (k : Z) :
  let out := select_top_k (Some k) df in
  let kept := unique (map Series.group out) in
  List.length kept
  = Nat.min (Z.to_nat k) (List.length (unique (map Series.group df))) /\
  (forall r, In r out <-> In r df /\ In (Series.group r) kept) /\
  (forall g, In g kept -> In g (map Series.group df)) /\
  (forall g h, In g kept -> In h (map Series.group df) -> ~ In h kept ->
               if has_y df g then
                 has_y df h = true ->
                 (group_max df h <? group_max df g) = true \/
                 ((group_max df g =? group_max df h) = true /\
                  String.ltb g h = true)
               else has_y df h = false /\ String.ltb g h = true).
Proof.
  intros out kept.
  destruct (top_groups_spec k df) as [Hnd [Hlen [Hin Hrank]]].
  assert (Hisin : forall g, isin g (top_groups k df) = true <-> In g (top_groups k df)).
  { intros g. unfold isin. rewrite existsb_exists. split.
    - intros [x [Hx E]]. apply String.eqb_eq in E. now subst.
    - intros H. exists g. split; [assumption|apply String.eqb_refl]. }
  assert (Hout : forall r, In r out <-> In r df /\ In (Series.group r) (top_groups k df)).
  { intros r. unfold out, select_top_k. now rewrite filter_In, Hisin. }
  assert (Hkept : forall g, In g kept <-> In g (top_groups k df)).
  { intros g. unfold kept. rewrite In_unique, in_map_iff. split.
    - intros [r [<- Hr]]. now apply Hout in Hr.
    - intros Hg. specialize (Hin g Hg).
      apply in_map_iff in Hin as [r [<- Hr]]. exists r. split; [reflexivity|].
      apply Hout. auto. }
  split; [|split; [|split]].
  - rewrite <- Hlen. apply Permutation_length.
    apply NoDup_Permutation; [apply NoDup_unique|assumption|exact Hkept].
  - intros r. rewrite Hout, Hkept. reflexivity.
  - intros g Hg. apply Hin. now apply Hkept.
  - intros g h Hg Hh Hnot.
    assert (Hb : takes_before df g h).
    { apply Hrank; try assumption; [now apply Hkept|].
      intros H. apply Hnot. now apply Hkept. }
    unfold takes_before in Hb.
    destruct (has_y df g), (has_y df h); easy.
Qed.

(** With [K = 1] the tie is won by key "a", not by "b" which comes first in
    the table; with [K = -1] nothing is kept, and a count of groups cannot be
    [min(-1, 2)]. *)
Lemma top_k_counterexample :
  map Series.group (select_top_k (Some 1%Z) tie_df) = ["a"%string] /\
  select_top_k (Some (-1)%Z) tie_df = [].
Proof. split; vm_compute; reflexivity. Qed.

(** A region without any count is taken after the regions with data: it is
    kept with [K = 2] and left out with [K = 1]. *)
Lemma groups_without_y_come_last :
  map Series.group (select_top_k (Some 2%Z) missing_df) = ["a"; "b"]%string /\
  map Series.group (select_top_k (Some 1%Z) missing_df) = ["b"%string].
Proof. split; vm_compute; reflexivity. Qed.

(** ** The growth equation: line 108 *)






Section Growth.
Variables libm_log libm_exp : float -> float.
Variable days_between : Z -> Z -> Z.

End Growth.



(** * Further properties of the code *)

(** ** The joined frame: lines 93-118 *)

Lemma In_dropna (q : list Event.t) (g : string) (ld : Z) (ty : string) :
  In (Event.mk (Some g) (Some ld) (Some ty) false) q ->
  In (Intervention.mk g ld ty) (dropna q).
Proof.
  unfold dropna. intros H. apply in_flat_map.
  exists (Event.mk (Some g) (Some ld) (Some ty) false).
  split; [assumption|now left].
Qed.

Lemma dropna_complete (q : list Event.t) (i : Intervention.t) :
  In i (dropna q) ->
  In (Event.mk (Some (Intervention.group i)) (Some (Intervention.lockdown_date i))
               (Some (Intervention.lockdown_type i)) false) q.
Proof.
  unfold dropna. intros H. apply in_flat_map in H as [e [He H]].
  destruct e as [[g|] [ld|] [ty|] [|]]; cbn in H; try contradiction.
  destruct H as [<-|[]]. exact He.
Qed.

Lemma In_merge_inner {A B C : Type} (key_l : A -> string) (key_r : B -> string)
      (pair : A -> B -> C) (l : list A) (r : list B) (a : A) (b : B) :
  In a l -> In b r -> key_r b = key_l a ->
  In (pair a b) (merge_inner key_l key_r pair l r).
Proof.
  intros Ha Hb E. unfold merge_inner, matches. apply in_flat_map.
  exists a. split; [assumption|]. apply in_map. apply filter_In.
  split; [assumption|]. now apply String.eqb_eq.
Qed.

Section JoinedFrame.
Variables libm_log libm_exp : float -> float.
Variable days_between : Z -> Z -> Z.

Local Abbreviation join := (join_interventions libm_log libm_exp days_between).

Lemma merged_row_base (R : list Lockdown.t) (a : Aligned.t) :
  Merged.base (merged_row R a) = a.
Proof.
  unfold merged_row. now destruct (lookup Lockdown.group (Aligned.group a) R).
Qed.

Lemma merged_row_x (R : list Lockdown.t) (a : Aligned.t) :
  Merged.lockdown_x (merged_row R a)
  = event_x (lookup Lockdown.group (Aligned.group a) R).
Proof.
  unfold merged_row. now destruct (lookup Lockdown.group (Aligned.group a) R).
Qed.

Lemma joined_row_data (R : list Lockdown.t) (I : list (string * float))
      (L : list Merged.t) (a : Aligned.t) :
  aligned_part (joined_row libm_log libm_exp R I L a) = Some a.
Proof.
  unfold joined_row, add_slope, aligned_part. rewrite merged_row_base.
  now destruct a.
Qed.

(** X1.  Before clipping, the rows of the frame that carry data are exactly
    the rows of the aligned frame, in their order and with their group,
    date, measure, [y], [x] and anchor unchanged: the three left merges of
    lines 93-107 neither drop nor duplicate a row, and line 118 only appends
    rows without data. *)
Theorem merges_keep_the_rows (q : option (list Event.t)) (d : list Aligned.t)
        (out : list Joined.t) :
  interventions libm_log libm_exp days_between q d = Some out ->
  data_rows out = d.
Proof.
  unfold interventions. destruct q as [q|].
  - destruct (join q d) as [j|] eqn:E; [|discriminate].
    intros [= <-]. apply join_interventions_Some in E as [-> _].
    unfold append_new_rows, data_rows. rewrite flat_map_app.
    assert (En : flat_map (fun r => match aligned_part r with
                                    | Some a => [a] | None => [] end)
                          (new_rows (joined_rows libm_log libm_exp days_between q d))
                 = []).
    { unfold new_rows. induction (group_keys _) as [|g keys IH]; [reflexivity|].
      cbn [map flat_map]. rewrite IH. reflexivity. }
    rewrite En, app_nil_r.
    unfold joined_rows, retained_rows. fold (retained_rows days_between q d).
    fold (joined_rows libm_log libm_exp days_between q d).
    rewrite join_rowwise. cbv zeta.
    generalize (retained_rows days_between q d) at 1.
    generalize (df_intercept (map (merged_row (retained_rows days_between q d)) d)).
    generalize (df_lockdown_y (map (merged_row (retained_rows days_between q d)) d)).
    intros L I R. clear En. induction d as [|a d IH]; [reflexivity|].
    cbn [map flat_map]. rewrite joined_row_data. cbn [app]. f_equal.
    exact IH.
  - intros [= <-]. unfold data_rows.
    induction d as [|a d IH]; [reflexivity|].
    cbn [map flat_map]. rewrite IH. now destruct a.
Qed.

(** X2.  The lockdown columns of a row are read off one record of the
    intervention table that has no missing value in any column: a record of
    the row's group, whose date and type the row carries, and [lockdown_x]
    is [days_between] applied to an anchor date of the group and the date of
    that record. *)
Theorem lockdown_columns_of_one_record (q : list Event.t) (d : list Aligned.t)
        (j : list Joined.t) (r : Joined.t) (v : Z) :
  join q d = Some j -> In r j -> Joined.lockdown_x r = Some v ->
  exists ld ty a,
    In (Event.mk (Some (Joined.group r)) (Some ld) (Some ty) false) q /\
    In a d /\ Aligned.group a = Joined.group r /\
    Joined.lockdown_date r = Some ld /\ Joined.lockdown_type r = Some ty /\
    v = days_between (Aligned.date_of_N a) ld.
Proof.
  intros E Hr Hv. apply join_interventions_Some in E as [-> _].
  apply join_columns in Hr. cbv zeta in Hr.
  destruct Hr as (Hx & Hty & Hld & _).
  destruct (lookup Lockdown.group (Joined.group r) (retained_rows days_between q d))
    as [e|] eqn:El; [|rewrite Hx in Hv; discriminate].
  apply lookup_Some in El as [He Hg].
  apply retained_spec in He as [He _]. unfold qualifying in He.
  apply filter_In in He as [He _]. unfold lockdown_rows in He.
  apply merge_inner_In in He as (i & a & Hi & Ha & Hk & ->).
  cbn in Hx, Hty, Hld, Hg. apply dropna_complete in Hi. rewrite Hg in Hi.
  exists (Intervention.lockdown_date i), (Intervention.lockdown_type i), a.
  repeat split; try assumption; congruence.
Qed.

(** X3.  Rows of one group carry the same values in the six columns that
    the join adds: the lockdown date, type and offset, the intercept, the
    lockdown value and the slope. *)
Theorem added_columns_constant_on_groups (q : list Event.t) (d : list Aligned.t)
        (j : list Joined.t) (r r' : Joined.t) :
  join q d = Some j -> In r j -> In r' j -> Joined.group r = Joined.group r' ->
  Joined.lockdown_date r = Joined.lockdown_date r' /\
  Joined.lockdown_type r = Joined.lockdown_type r' /\
  Joined.lockdown_x r = Joined.lockdown_x r' /\
  Joined.intercept r = Joined.intercept r' /\
  Joined.lockdown_y r = Joined.lockdown_y r' /\
  Joined.lockdown_slope r = Joined.lockdown_slope r'.
Proof.
  intros E Hr Hr' Hg. apply join_interventions_Some in E as [-> _].
  apply join_In in Hr as [a [_ ->]]. apply join_In in Hr' as [a' [_ ->]].
  unfold joined_row, add_slope in *. cbn -[merged_row] in Hg |- *.
  rewrite !merged_row_base in Hg. rewrite Hg.
  unfold merged_row. rewrite Hg.
  destruct (lookup Lockdown.group (Aligned.group a')
                   (retained_rows days_between q d)); repeat split.
Qed.

Lemma intercept_of_keys (f : string -> float) (keys : list string) (g : string) :
  intercept_of (map (fun k => (k, f k)) keys) g
  = if existsb (String.eqb g) keys then f g else nan.
Proof.
  unfold intercept_of, lookup.
  induction keys as [|k keys IH]; [reflexivity|].
  cbn [map find fst existsb]. rewrite (String.eqb_sym g k).
  destruct (String.eqb_spec k g) as [->|]; [reflexivity|exact IH].
Qed.

Lemma first_notna_find (R : list Lockdown.t) (g : string) (d : list Aligned.t) :
  first_notna
    (map Merged.y
       (filter (fun m => String.eqb (Merged.group m) g)
          (filter (fun m => (Merged.x m =? 0)%Z) (map (merged_row R) d))))
  = match find (fun a => String.eqb (Aligned.group a) g && (Aligned.x a =? 0)%Z
                         && notna (Aligned.y a)) d with
    | Some a => Aligned.y a
    | None => nan
    end.
Proof.
  unfold first_notna.
  induction d as [|a d IH]; [reflexivity|].
  assert (Ex : Merged.x (merged_row R a) = Aligned.x a)
    by (unfold Merged.x; now rewrite merged_row_base).
  assert (Eg : Merged.group (merged_row R a) = Aligned.group a)
    by (unfold Merged.group; now rewrite merged_row_base).
  assert (Ey : Merged.y (merged_row R a) = Aligned.y a)
    by (unfold Merged.y; now rewrite merged_row_base).
  cbn [map filter find]. rewrite Ex.
  destruct (Aligned.x a =? 0)%Z; cbn [filter];
    [|rewrite andb_false_r; exact IH].
  rewrite Eg.
  destruct (String.eqb (Aligned.group a) g); cbn [map filter andb]; [|exact IH].
  rewrite Ey.
  destruct (notna (Aligned.y a)); [reflexivity|exact IH].
Qed.

(** X4.  The intercept of a row is the [y] of the first aligned row of its
    group that has [x = 0] and a [y] that is not missing; it is missing when
    the group has no such row. *)
Theorem intercept_is_first_y_at_origin (q : list Event.t) (d : list Aligned.t)
        (j : list Joined.t) (r : Joined.t) :
  join q d = Some j -> In r j ->
  Joined.intercept r
  = match find (fun a => String.eqb (Aligned.group a) (Joined.group r)
                         && (Aligned.x a =? 0)%Z && notna (Aligned.y a)) d with
    | Some a => Aligned.y a
    | None => nan
    end.
Proof.
  intros E Hr. apply join_interventions_Some in E as [-> _].
  apply join_In in Hr as [a [_ ->]].
  unfold joined_row, add_slope. cbn [Joined.intercept Joined.group].
  rewrite merged_row_base. unfold df_intercept. rewrite intercept_of_keys.
  rewrite first_notna_find.
  destruct (existsb _ _) eqn:Ex; [reflexivity|].
  destruct (find _ d) as [a0|] eqn:Ef; [|reflexivity].
  apply find_some in Ef as [Ha0 Hp].
  apply andb_prop in Hp as [Hp _]. apply andb_prop in Hp as [Hg0 Hx0].
  apply String.eqb_eq in Hg0.
  assert (Hin : In (Aligned.group a)
                   (group_keys
                      (map Merged.group
                         (filter (fun m => (Merged.x m =? 0)%Z)
                            (map (merged_row (retained_rows days_between q d)) d))))).
  { apply In_group_keys. apply in_map_iff.
    exists (merged_row (retained_rows days_between q d) a0). split.
    - unfold Merged.group. now rewrite merged_row_base.
    - apply filter_In. split; [now apply in_map|].
      unfold Merged.x. now rewrite merged_row_base. }
  assert (Ht : existsb (String.eqb (Aligned.group a))
                 (group_keys
                    (map Merged.group
                       (filter (fun m => (Merged.x m =? 0)%Z)
                          (map (merged_row (retained_rows days_between q d)) d))))
               = true).
  { apply existsb_exists. exists (Aligned.group a). split; [exact Hin|].
    apply String.eqb_refl. }
  rewrite Ht in Ex. discriminate.
Qed.

Lemma df_lockdown_y_In (m : list Merged.t) (l : Merged.t) :
  In l (df_lockdown_y m) ->
  In l m /\ le_opt (Merged.x l) (Merged.lockdown_x l) = true /\
  forall l', In l' m -> le_opt (Merged.x l') (Merged.lockdown_x l') = true ->
             Merged.group l' = Merged.group l -> (Merged.x l' <= Merged.x l)%Z.
Proof.
  rewrite df_lockdown_y_eq. cbv zeta. intros H.
  apply in_flat_map in H as [g [_ H]].
  apply group_max_row_spec in H as (Hg & Hin & Hmax).
  rewrite map_snd_loc_mask, range_index_rows in Hin, Hmax.
  apply filter_In in Hin as [Hin Hp].
  split; [assumption|]. split; [assumption|].
  intros l' Hl' Hp' Hg'. apply Hmax; [|congruence].
  apply filter_In. now split.
Qed.

Lemma df_lockdown_y_groups (m : list Merged.t) (l' : Merged.t) :
  In l' m -> le_opt (Merged.x l') (Merged.lockdown_x l') = true ->
  exists l, In l (df_lockdown_y m) /\ Merged.group l = Merged.group l'.
Proof.
  intros Hin Hp.
  assert (Hg : In (Merged.group l') (map Merged.group (df_lockdown_y m))).
  { rewrite df_lockdown_y_eq. cbv zeta.
    rewrite groups_of_group_max_row
      by (intros g Hg; exact (proj1 (In_group_keys _ _) Hg)).
    apply In_group_keys. rewrite <- (map_map snd Merged.group).
    rewrite map_snd_loc_mask, range_index_rows.
    apply in_map. apply filter_In. now split. }
  apply in_map_iff in Hg as [l [Hg Hl]]. eauto.
Qed.

(** X5.  When a row has a lockdown offset, its lockdown value is the [y] of
    an aligned row of its group whose [x] is the greatest among the rows of
    the group at or before the offset; it is missing when every row of the
    group lies after the offset.  A row without an offset has no lockdown
    value. *)
Theorem lockdown_y_is_y_at_lockdown (q : list Event.t) (d : list Aligned.t)
        (j : list Joined.t) (r : Joined.t) :
  join q d = Some j -> In r j ->
  match Joined.lockdown_x r with
  | None => Joined.lockdown_y r = nan
  | Some L =>
      (exists a, In a d /\ Aligned.group a = Joined.group r /\
                 (Aligned.x a <= L)%Z /\
                 (forall a', In a' d -> Aligned.group a' = Joined.group r ->
                             (Aligned.x a' <= L)%Z -> (Aligned.x a' <= Aligned.x a)%Z) /\
                 Joined.lockdown_y r = Aligned.y a)
      \/ ((forall a, In a d -> Aligned.group a = Joined.group r ->
                     (L < Aligned.x a)%Z) /\
          Joined.lockdown_y r = nan)
  end.
Proof.
  intros E Hr. apply join_interventions_Some in E as [-> _].
  apply join_In in Hr as [a0 [_ ->]].
  set (R := retained_rows days_between q d).
  assert (Hrow : forall a, In a d -> Aligned.group a = Aligned.group a0 ->
                           Merged.lockdown_x (merged_row R a)
                           = event_x (lookup Lockdown.group (Aligned.group a0) R)).
  { intros a _ Hg. now rewrite merged_row_x, Hg. }
  unfold joined_row, add_slope.
  cbn [Joined.lockdown_x Joined.lockdown_y Joined.group].
  rewrite merged_row_base, merged_row_x. unfold lockdown_y_of.
  destruct (lookup Merged.group (Aligned.group a0)
                   (df_lockdown_y (map (merged_row R) d))) as [l|] eqn:El.
  - apply lookup_Some in El as [Hl Hg].
    apply df_lockdown_y_In in Hl as (Hin & Hp & Hmax).
    apply in_map_iff in Hin as [a [<- Ha]].
    unfold Merged.group in Hg. rewrite merged_row_base in Hg.
    unfold Merged.x at 1 in Hp. rewrite merged_row_base in Hp.
    rewrite (Hrow a Ha Hg) in Hp.
    destruct (event_x (lookup Lockdown.group (Aligned.group a0) R)) as [L|] eqn:Ex;
      [|discriminate].
    left. exists a. cbn [le_opt] in Hp. apply Z.leb_le in Hp.
    split; [assumption|]. split; [assumption|]. split; [assumption|].
    split; [|unfold Merged.y; now rewrite merged_row_base].
    intros a' Ha' Hg' Hx'.
    specialize (Hmax (merged_row R a') (in_map _ _ _ Ha')).
    unfold Merged.x, Merged.group in Hmax. rewrite !merged_row_base in Hmax.
    apply Hmax; [|congruence].
    rewrite (Hrow a' Ha' Hg'). now apply Z.leb_le.
  - destruct (event_x (lookup Lockdown.group (Aligned.group a0) R)) as [L|] eqn:Ex;
      [|reflexivity].
    right. split; [|reflexivity].
    intros a Ha Hg. apply Z.nle_gt. intros Hx.
    destruct (df_lockdown_y_groups (map (merged_row R) d) (merged_row R a))
      as [l [Hl Hgl]].
    + now apply in_map.
    + unfold Merged.x. rewrite merged_row_base, (Hrow a Ha Hg).
      now apply Z.leb_le.
    + apply (lookup_None _ _ _ El l Hl).
      rewrite Hgl. unfold Merged.group. now rewrite merged_row_base.
Qed.
End JoinedFrame.

(** ** When line 87 raises *)

Section Raises.
Variables libm_log libm_exp : float -> float.
Variable days_between : Z -> Z -> Z.

(** X6.  [_preprocess_df] raises exactly when an intervention table is
    given and no record of it that is free of missing values in every column
    belongs to a group of the aligned frame: an empty table, a table whose
    records all have a missing value somewhere, or one about other groups
    only.  Without a table it always returns. *)
Theorem raises_iff_no_complete_record_matches (c : CovidChart) :
  preprocess_df libm_log libm_exp days_between c = None <->
  exists q, quarantine_df c = Some q /\
            forall g ld ty a, In (Event.mk (Some g) (Some ld) (Some ty) false) q ->
                              In a (aligned c) -> Aligned.group a <> g.
Proof.
  unfold preprocess_df, interventions, join_interventions, retained_lockdowns,
    with_lockdown_x.
  destruct (quarantine_df c) as [q|]; cbn.
  - destruct (lockdown_rows days_between (dropna q) (aligned c)) as [|e l] eqn:E; cbn.
    + split; [|reflexivity]. intros _. exists q. split; [reflexivity|].
      intros g ld ty a Hq Ha Hg.
      apply In_dropna in Hq.
      assert (H := In_merge_inner Intervention.group Aligned.group
                     (fun e r => Lockdown.mk (Intervention.group e)
                                   (Intervention.lockdown_date e)
                                   (Intervention.lockdown_type e) (Aligned.date_of_N r)
                                   (days_between (Aligned.date_of_N r)
                                      (Intervention.lockdown_date e)))
                     _ _ _ _ Hq Ha Hg).
      unfold lockdown_rows in E. rewrite E in H. contradiction.
    + split; [discriminate|]. intros [q' [[= <-] H]]. exfalso.
      assert (He : In e (lockdown_rows days_between (dropna q) (aligned c)))
        by (rewrite E; now left).
      unfold lockdown_rows in He.
      apply merge_inner_In in He as (i & a & Hi & Ha & Hk & _).
      apply dropna_complete in Hi. exact (H _ _ _ a Hi Ha Hk).
  - split; [discriminate|]. intros [q [H _]]. discriminate.
Qed.

(** X7.  A record of the intervention table with a missing group, date or
    type, or with a missing value in any other column, has no effect on the
    result, wherever it stands in the table. *)
Theorem incomplete_records_are_ignored (q1 q2 : list Event.t) (e : Event.t)
        (d : list Aligned.t) :
  Event.group e = None \/ Event.lockdown_date e = None \/
  Event.lockdown_type e = None \/ Event.other_missing e = true ->
  interventions libm_log libm_exp days_between (Some (q1 ++ e :: q2)) d
  = interventions libm_log libm_exp days_between (Some (q1 ++ q2)) d.
Proof.
  intros He.
  assert (E : dropna (q1 ++ e :: q2) = dropna (q1 ++ q2)).
  { unfold dropna. rewrite !flat_map_app. f_equal. cbn [flat_map].
    destruct e as [[g|] [ld|] [ty|] [|]]; cbn in He |- *; try reflexivity.
    destruct He as [He|[He|[He|He]]]; discriminate. }
  unfold interventions, join_interventions, retained_lockdowns.
  now rewrite E.
Qed.
End Raises.

(** ** The normalizer: lines 67-78 *)

Lemma skeleton_cumulate (keys : list string) (d : list Series.t) :
  skeleton (fold_left cumulate_group keys d) = skeleton d.
Proof.
  revert d. induction keys as [|g keys IH]; intros d; [reflexivity|].
  cbn [fold_left]. rewrite IH. apply loc_assign_y_skeleton.
Qed.

Lemma skeleton_add_y (b : bool) (df : list Obs.t) : skeleton (add_y b df) = df.
Proof.
  unfold add_y. destruct b.
  - unfold skeleton. rewrite map_map. cbn.
    rewrite <- (map_id df) at 2. apply map_ext. now intros [g d m].
  - unfold cumulate. rewrite skeleton_cumulate.
    unfold skeleton. rewrite map_map. cbn.
    rewrite <- (map_id df) at 2. apply map_ext. now intros [g d m].
Qed.

Lemma skeleton_keep (keep : string -> bool) (d : list Series.t) :
  skeleton (filter (fun r => keep (Series.group r)) d)
  = filter (fun o => keep (Obs.group o)) (skeleton d).
Proof.
  unfold skeleton. induction d as [|r d IH]; [reflexivity|].
  cbn [filter map Obs.group]. destruct (keep (Series.group r)); cbn [map];
    now rewrite IH.
Qed.

(** X8.  Lines 67-78 never change the group, date or measure of a row and
    never reorder rows: without [top_k_groups] the frame keeps every input
    row in place, and with it the frame keeps, in their input order, exactly
    the input rows of the selected groups. *)
Theorem normalize_keeps_rows_in_place (b : bool) (df : list Obs.t) :
  skeleton (normalize b None df) = df /\
  forall k, skeleton (normalize b (Some k) df)
            = filter (fun o => isin (Obs.group o) (top_groups k (add_y b df))) df.
Proof.
  unfold normalize, select_top_k. split; [apply skeleton_add_y|].
  intros k.
  rewrite (skeleton_keep (fun g => isin g (top_groups k (add_y b df)))).
  now rewrite skeleton_add_y.
Qed.

Lemma isin_In (g : string) (l : list string) : isin g l = true <-> In g l.
Proof.
  unfold isin. rewrite existsb_exists. split.
  - intros [x [Hx E]]. apply String.eqb_eq in E. now subst.
  - intros H. exists g. split; [assumption|apply String.eqb_refl].
Qed.

Lemma filter_all {A : Type} (p : A -> bool) (l : list A) :
  (forall a, In a l -> p a = true) -> filter p l = l.
Proof.
  induction l as [|a l IH]; intros H; [reflexivity|].
  cbn [filter]. rewrite (H a (or_introl eq_refl)). f_equal.
  apply IH. intros; apply H; now right.
Qed.

(** X9.  When every group has a [y] that is not missing and
    [top_k_groups] is at least the number of groups, the selection of lines
    76-78 keeps the whole frame. *)
Theorem top_k_keeps_all_when_k_covers (df : list Series.t) (k : Z) :
  (forall g, In g (map Series.group df) -> has_y df g = true) ->
  (Z.of_nat (List.length (unique (map Series.group df))) <= k)%Z ->
  select_top_k (Some k) df = df.
Proof.
  intros Hy Hk. unfold select_top_k.
  destruct (top_groups_spec k df) as (Hnd & Hlen & Hin & _).
  rewrite Nat.min_r in Hlen by lia.
  assert (Hincl : incl (unique (map Series.group df)) (top_groups k df)).
  { apply NoDup_length_incl; [assumption|lia|].
    intros g Hg. apply In_unique. now apply Hin. }
  apply filter_all. intros r Hr. apply isin_In, Hincl, In_unique.
  now apply in_map.
Qed.

Lemma firstn_le_In {A : Type} (n m : nat) (l : list A) (a : A) :
  n <= m -> In a (firstn n l) -> In a (firstn m l).
Proof.
  revert m l. induction n as [|n IH]; intros m l Hle H; [contradiction|].
  destruct m as [|m]; [lia|]. destruct l as [|b l]; [contradiction|].
  cbn [firstn] in *. destruct H as [H|H]; [now left|right].
  apply (IH m l); [lia|assumption].
Qed.

(** X10.  Raising [top_k_groups] never removes a row: every row kept with
    [K] groups is kept with any [K' >= K]. *)
Theorem top_k_grows_with_k (df : list Series.t) (k k' : Z) (r : Series.t) :
  (k <= k')%Z ->
  In r (select_top_k (Some k) df) -> In r (select_top_k (Some k') df).
Proof.
  intros Hk. unfold select_top_k. rewrite !filter_In, !isin_In.
  intros [Hr Hg]. split; [assumption|].
  rewrite top_groups_eq in Hg |- *.
  destruct (Z.leb_spec k 0) as [H0|H0]; [contradiction|].
  destruct (Z.leb_spec k' 0) as [H0'|H0']; [lia|].
  apply in_map_iff in Hg as [e [<- He]]. apply in_map.
  apply (firstn_le_In (Z.to_nat k)); [lia|assumption].
Qed.

(** ** Missing measures in the cumulative sum: lines 70-74 *)

Lemma is_nan_eq (v : float) : is_nan v = true -> v = nan.
Proof.
  intros H. rewrite <- (SF2Prim_Prim2SF v). unfold Prim2SF. now rewrite H.
Qed.

Lemma nth_error_filter_rank {A : Type} (p : A -> bool) (d : list A) (i : nat) (a : A) :
  nth_error d i = Some a -> p a = true ->
  nth_error (filter p d) (rank p d i) = Some a.
Proof.
  unfold rank. revert i. induction d as [|b d IH]; intros [|i] H Hp; try discriminate.
  - injection H as ->. cbn. now rewrite Hp.
  - cbn in H. cbn [firstn filter]. destruct (p b); cbn; now apply IH.
Qed.

Lemma nth_error_combine {A B : Type} (l : list A) (l' : list B) (n : nat) :
  nth_error (combine l l') n
  = match nth_error l n, nth_error l' n with
    | Some a, Some b => Some (a, b)
    | _, _ => None
    end.
Proof.
  revert l' n. induction l as [|a l IH]; intros [|b l'] [|n]; cbn; try reflexivity.
  - now destruct (nth_error l n).
  - apply IH.
Qed.

Lemma cumsum_nth_error (l : list float) (n : nat) (v : float) :
  nth_error l n = Some v ->
  nth_error (cumsum l) n
  = Some (if is_nan v then nan
          else nth n (np_cumsum (map zero_if_missing l)) nan).
Proof.
  intros H. unfold cumsum.
  change (fun v0 : float => if is_nan v0 then 0 else v0) with zero_if_missing.
  rewrite nth_error_map, nth_error_combine, H.
  assert (Hlt : n < List.length (np_cumsum (map zero_if_missing l))).
  { assert (E : forall a t, List.length (np_cumsum_from a t) = List.length t).
    { intros a t. revert a. induction t as [|w t IH]; intros a; cbn; [reflexivity|].
      now rewrite IH. }
    assert (Hn : n < List.length l) by (apply nth_error_Some; congruence).
    unfold np_cumsum. destruct l as [|w t]; [cbn in Hn; lia|].
    cbn [map List.length] in *. now rewrite E, length_map. }
  apply nth_error_Some in Hlt.
  destruct (nth_error (np_cumsum (map zero_if_missing l)) n) as [s|] eqn:Es; [|easy].
  cbn. now rewrite (nth_error_nth _ _ nan Es).
Qed.

Lemma zero_if_missing_idem (l : list float) :
  map zero_if_missing (map zero_if_missing l) = map zero_if_missing l.
Proof.
  rewrite map_map. apply map_ext. intros v. unfold zero_if_missing.
  destruct (is_nan v) eqn:E; [reflexivity|now rewrite E].
Qed.

Lemma filter_fill_measures (g : string) (df : list Obs.t) :
  map Obs.measure (filter (fun o => String.eqb (Obs.group o) g) (fill_measures df))
  = map zero_if_missing
        (map Obs.measure (filter (fun o => String.eqb (Obs.group o) g) df)).
Proof.
  unfold fill_measures. induction df as [|o df IH]; [reflexivity|].
  cbn [map filter Obs.group]. destruct (String.eqb (Obs.group o) g); cbn [map];
    now rewrite IH.
Qed.

Lemma rank_fill_measures (g : string) (df : list Obs.t) (i : nat) :
  rank (fun o => String.eqb (Obs.group o) g) (fill_measures df) i
  = rank (fun o => String.eqb (Obs.group o) g) df i.
Proof.
  unfold rank, fill_measures. revert i.
  induction df as [|o df IH]; intros [|i]; cbn; try reflexivity.
  destruct (String.eqb (Obs.group o) g); cbn; now rewrite IH.
Qed.

Lemma running_sum_eq (df : list Obs.t) (i : nat) (o : Obs.t) :
  nth_error df i = Some o ->
  running_sum df i (Obs.group o)
  = if is_nan (Obs.measure o) then nan
    else nth (rank (fun r => String.eqb (Obs.group r) (Obs.group o)) df i)
             (np_cumsum
                (map zero_if_missing
                   (map Obs.measure
                      (filter (fun r => String.eqb (Obs.group r) (Obs.group o)) df))))
             nan.
Proof.
  intros H. unfold running_sum. cbv zeta.
  set (p := fun r => String.eqb (Obs.group r) (Obs.group o)).
  assert (Hn : nth_error (map Obs.measure (filter p df)) (rank p df i)
               = Some (Obs.measure o)).
  { rewrite nth_error_map, (nth_error_filter_rank p df i o H); [reflexivity|].
    apply String.eqb_refl. }
  apply nth_error_nth. now apply cumsum_nth_error.
Qed.

(** X11.  With a measure that is not cumulative, a row whose measure is
    missing gets a missing [y], and any other row gets the [y] it would get
    if the missing measures of the table were 0: a gap in the reports leaves
    a gap in the curve and does not disturb the sums after it. *)
Theorem missing_measure_is_skipped (df : list Obs.t) (i : nat) (o : Obs.t) :
  nth_error df i = Some o ->
  (is_nan (Obs.measure o) = true -> summed_y df i = Some nan) /\
  (is_nan (Obs.measure o) = false ->
   summed_y df i = summed_y (fill_measures df) i).
Proof.
  intros H. unfold summed_y. rewrite (add_y_nth df i o H).
  cbn [option_map Series.y].
  rewrite (running_sum_eq df i o H). split; intros E; rewrite E; [reflexivity|].
  set (o' := Obs.mk (Obs.group o) (Obs.date o) (zero_if_missing (Obs.measure o))).
  assert (H' : nth_error (fill_measures df) i = Some o').
  { unfold fill_measures. now rewrite nth_error_map, H. }
  rewrite (add_y_nth _ i o' H'). cbn [option_map Series.y].
  rewrite (running_sum_eq _ i o' H'). cbn [Obs.group Obs.measure o'].
  replace (zero_if_missing (Obs.measure o)) with (Obs.measure o)
    by (unfold zero_if_missing; now rewrite E).
  rewrite E.
  now rewrite filter_fill_measures, rank_fill_measures, zero_if_missing_idem.
Qed.

(** X12.  With a measure that is not cumulative, the first row of each
    group in the table gets its own measure as [y]. *)
Theorem first_row_of_group_starts_the_sum (df : list Obs.t) (i : nat) (o : Obs.t) :
  nth_error df i = Some o ->
  (forall j o', j < i -> nth_error df j = Some o' -> Obs.group o' <> Obs.group o) ->
  nth_error (add_y false df) i
  = Some (Series.mk (Obs.group o) (Obs.date o) (Obs.measure o) (Obs.measure o)).
Proof.
  intros H Hfirst. rewrite (add_y_nth df i o H). do 2 f_equal.
  rewrite (running_sum_eq df i o H).
  set (p := fun r => String.eqb (Obs.group r) (Obs.group o)).
  assert (Hr : rank p df i = 0%nat).
  { unfold rank. apply length_zero_iff_nil. apply filter_none.
    intros a Ha. apply In_nth_error in Ha as [j Hj].
    assert (Hlt : j < i).
    { assert (Hl : j < List.length (firstn i df)) by (apply nth_error_Some; congruence).
      rewrite length_firstn in Hl. lia. }
    rewrite nth_error_firstn in Hj.
    destruct (Nat.ltb_spec j i); [|lia].
    apply String.eqb_neq. now apply (Hfirst j). }
  assert (Hn := nth_error_filter_rank p df i o H (String.eqb_refl _)).
  rewrite Hr in Hn |- *.
  destruct (filter p df) as [|a t]; [discriminate|]. injection Hn as ->.
  cbn. unfold zero_if_missing.
  destruct (is_nan (Obs.measure o)) eqn:E; [|reflexivity].
  symmetry. now apply is_nan_eq.
Qed.

(** ** Constructor and configuration methods *)

Lemma getattr_setattr (k k' : string) (v : py) (s : list (string * py)) :
  getattr k (setattr k' v s) = if String.eqb k' k then Some v else getattr k s.
Proof.
  unfold getattr. induction s as [|[k0 v0] s IH]; cbn [setattr find fst].
  - destruct (String.eqb k' k); reflexivity.
  - destruct (String.eqb_spec k0 k') as [->|Hne]; cbn [find fst].
    + destruct (String.eqb k' k); reflexivity.
    + destruct (String.eqb_spec k0 k) as [->|Hne']; [|exact IH].
      destruct (String.eqb_spec k' k) as [->|_]; [congruence|reflexivity].
Qed.

Lemma setattr_same (k : string) (v : py) (s : list (string * py)) :
  getattr k s = Some v -> setattr k v s = s.
Proof.
  unfold getattr. induction s as [|[k0 v0] s IH]; cbn [setattr find fst];
    [discriminate|].
  destruct (String.eqb_spec k0 k) as [->|Hne].
  - cbn. now intros [= ->].
  - intros H. now rewrite IH.
Qed.

Lemma find_last {A : Type} (p : A -> bool) (l : list A) (a : A) :
  find p (l ++ [a])
  = match find p l with
    | Some b => Some b
    | None => if p a then Some a else None
    end.
Proof.
  induction l as [|b l IH]; [reflexivity|].
  cbn [app find]. now destruct (p b).
Qed.

(** After successive assignments a name holds the value assigned last. *)
Lemma getattr_set_all (kvs : list (string * py)) :
  forall (s : list (string * py)) (k : string),
    getattr k (set_all kvs s)
    = match find (fun kv => String.eqb (fst kv) k) (rev kvs) with
      | Some kv => Some (snd kv)
      | None => getattr k s
      end.
Proof.
  unfold set_all. induction kvs as [|[k0 v0] kvs IH]; intros s k; [reflexivity|].
  cbn [fold_left rev fst snd]. rewrite IH, find_last.
  destruct (find _ (rev kvs)) as [kv|]; [reflexivity|].
  cbn [fst snd]. rewrite getattr_setattr.
  now destruct (String.eqb k0 k).
Qed.

Lemma set_all_same (kvs : list (string * py)) :
  forall s, Forall (fun kv => getattr (fst kv) s = Some (snd kv)) kvs ->
            set_all kvs s = s.
Proof.
  unfold set_all. induction kvs as [|[k0 v0] kvs IH]; intros s H; [reflexivity|].
  inversion H as [|? ? H0 H1]; subst. cbn [fst snd] in H0.
  cbn [fold_left fst snd]. rewrite (setattr_same _ _ _ H0). now apply IH.
Qed.

(** Assignments in which every name is last given the value it is given
    anywhere can be repeated without effect. *)
Lemma set_all_idem (kvs : list (string * py)) (s : list (string * py)) :
  Forall (fun kv => option_map snd
                      (find (fun kv' => String.eqb (fst kv') (fst kv)) (rev kvs))
                    = Some (snd kv)) kvs ->
  set_all kvs (set_all kvs s) = set_all kvs s.
Proof.
  intros H. apply set_all_same.
  eapply Forall_impl; [|exact H]. intros kv Hkv. cbv beta in Hkv.
  rewrite getattr_set_all.
  now destruct (find (fun kv' => String.eqb (fst kv') (fst kv)) (rev kvs)).
Qed.

Section ConfigurationFacts.
Variables DEFAULT_POINT_SIZE DEFAULT_WIDTH DEFAULT_HEIGHT : py.
Variable new_spec : ChartSpec.
Variable new_attrs : list (string * py).

Local Abbreviation defaults :=
  (set_defaults DEFAULT_POINT_SIZE DEFAULT_WIDTH DEFAULT_HEIGHT).
Local Abbreviation new_chart :=
  (init DEFAULT_POINT_SIZE DEFAULT_WIDTH DEFAULT_HEIGHT new_spec new_attrs).
Local Abbreviation entries :=
  (default_entries DEFAULT_POINT_SIZE DEFAULT_WIDTH DEFAULT_HEIGHT).

Lemma set_defaults_eq (c : Chart) :
  defaults c = with_attrs (set_all (entries c) (attrs c)) c.
Proof.
  unfold set_defaults, default_entries. now destruct (quarantine_df (state c)).
Qed.

(** X13.  [set_defaults] can be repeated: a second call changes nothing.
    It never touches the data, the two domains or the column names of the
    chart. *)
Theorem set_defaults_idempotent (c : Chart) :
  defaults (defaults c) = defaults c /\
  state (defaults c) = state c /\ groupcol (defaults c) = groupcol c /\
  xcol (defaults c) = xcol c /\ ycol (defaults c) = ycol c.
Proof.
  split; [|now rewrite set_defaults_eq].
  rewrite (set_defaults_eq (defaults c)), (set_defaults_eq c).
  unfold with_attrs. cbn [state groupcol xcol ycol attrs]. f_equal.
  assert (E : entries
                {| state := state c; groupcol := groupcol c; xcol := xcol c;
                   ycol := ycol c; attrs := set_all (entries c) (attrs c) |}
              = entries c) by reflexivity.
  rewrite E. apply set_all_idem.
  unfold default_entries. destruct (quarantine_df (state c));
    repeat (constructor; [reflexivity|]); constructor.
Qed.

(** X14.  After [set_defaults] every attribute of [default_names] holds
    its default, whatever was configured before: an earlier [colorby] is
    replaced by the grouping column.  [lockdown_rules] is switched on
    exactly for a chart with an intervention table and otherwise keeps its
    state, and every attribute outside [default_names] and
    [lockdown_rules], such as the titles and [facetby], keeps its state. *)
Theorem set_defaults_attributes (c : Chart) (k : string) :
  (In k default_names ->
   getattr k (attrs (defaults c))
   = getattr k (attrs (defaults (with_attrs [] c)))) /\
  getattr "colorby" (attrs (defaults c)) = Some (PyStr (groupcol c)) /\
  getattr "lockdown_rules" (attrs (defaults c))
  = match quarantine_df (state c) with
    | Some _ => Some (PyBool true)
    | None => getattr "lockdown_rules" (attrs c)
    end /\
  (~ In k default_names -> k <> "lockdown_rules"%string ->
   getattr k (attrs (defaults c)) = getattr k (attrs c)).
Proof.
  rewrite !set_defaults_eq. unfold with_attrs. cbn [attrs].
  change (entries {| state := state c; groupcol := groupcol c; xcol := xcol c;
                     ycol := ycol c; attrs := [] |}) with (entries c).
  rewrite !getattr_set_all.
  split; [|split; [|split]].
  - intros Hk. unfold default_names in Hk. cbn [In] in Hk.
    unfold default_entries.
    repeat (destruct Hk as [<-|Hk];
            [now destruct (quarantine_df (state c))|]).
    contradiction.
  - unfold default_entries. now destruct (quarantine_df (state c)).
  - unfold default_entries. now destruct (quarantine_df (state c)).
  - intros Hk Hl.
    assert (Hnone : forall kvs, Forall (fun kv => fst kv <> k) kvs ->
                                find (fun kv : string * py => String.eqb (fst kv) k) kvs
                                = None).
    { intros kvs H. induction H as [|kv kvs Hkv _ IH]; [reflexivity|].
      cbn [find]. now destruct (String.eqb_spec (fst kv) k). }
    rewrite Hnone; [reflexivity|].
    apply Forall_rev. unfold default_entries, default_names in *. cbn [In] in Hk.
    destruct (quarantine_df (state c));
      repeat (constructor; [cbn [fst]; intros <-; tauto|]); constructor.
Qed.

Lemma isin_not (g : string) (l : list string) : isin g l = false <-> ~ In g l.
Proof.
  rewrite <- isin_In. now destruct (isin g l).
Qed.

(** X15.  The constructor raises [ValueError] exactly when a required
    column is missing, with the message of the first failing check: the
    grouping column of [df], the measure column of [df], then, when an
    intervention table is given, its grouping column (under the same message
    as for [df]), [lockdown_date] and [lockdown_type].  The column named by
    [xcol] is never looked for. *)
Theorem init_raises_on_first_missing_column
        (df : Frame Obs.t) (g : string)
        (criterion : list Series.t -> list Aligned.t) (y : string)
        (use_defaults cumulative : bool) (k : option Z) (x : string)
        (q : option (Frame Event.t)) (msg : string) :
  new_chart df g criterion y use_defaults cumulative k x q = Raised msg <->
  (~ In g (columns df) /\
   msg = "grouping col should be in dataframe cols"%string) \/
  (In g (columns df) /\ ~ In y (columns df) /\
   msg = "measure col should be in dataframe cols"%string) \/
  (In g (columns df) /\ In y (columns df) /\
   exists t, q = Some t /\
     ((~ In g (columns t) /\
       msg = "grouping col should be in dataframe cols"%string) \/
      (In g (columns t) /\ ~ In "lockdown_date"%string (columns t) /\
       msg = "lockdown_date should be in quarantine_df columns"%string) \/
      (In g (columns t) /\ In "lockdown_date"%string (columns t) /\
       ~ In "lockdown_type"%string (columns t) /\
       msg = "lockdown_type should be in quarantine_df columns"%string))).
Proof.
  unfold init.
  destruct (isin g (columns df)) eqn:Eg; cbn [negb];
    [apply isin_In in Eg|apply isin_not in Eg].
  2:{ split.
      - intros [= <-]. left. now split.
      - intros [[_ ->]|[[H _]|[H _]]]; [reflexivity|contradiction|contradiction]. }
  destruct (isin y (columns df)) eqn:Ey; cbn [negb];
    [apply isin_In in Ey|apply isin_not in Ey].
  2:{ split.
      - intros [= <-]. right. left. now repeat split.
      - intros [[H _]|[(_ & _ & ->)|(_ & H & _)]];
          [contradiction|reflexivity|contradiction]. }
  destruct q as [t|].
  2:{ split; [discriminate|].
      intros [[H _]|[(_ & H & _)|(_ & _ & t & H & _)]];
        [contradiction|contradiction|discriminate]. }
  destruct (isin g (columns t)) eqn:Etg; cbn [negb];
    [apply isin_In in Etg|apply isin_not in Etg].
  2:{ split.
      - intros [= <-]. right. right. split; [assumption|]. split; [assumption|].
        exists t. split; [reflexivity|]. left. now split.
      - intros [[H _]|[(_ & H & _)|(_ & _ & t' & [= <-] & H)]];
          [contradiction|contradiction|].
        destruct H as [[_ ->]|[[H _]|[H _]]];
          [reflexivity|contradiction|contradiction]. }
  destruct (isin "lockdown_date" (columns t)) eqn:Eld; cbn [negb];
    [apply isin_In in Eld|apply isin_not in Eld].
  2:{ split.
      - intros [= <-]. right. right. split; [assumption|]. split; [assumption|].
        exists t. split; [reflexivity|]. right. left. now repeat split.
      - intros [[H _]|[(_ & H & _)|(_ & _ & t' & [= <-] & H)]];
          [contradiction|contradiction|].
        destruct H as [[H _]|[(_ & _ & ->)|(_ & H & _)]];
          [contradiction|reflexivity|contradiction]. }
  destruct (isin "lockdown_type" (columns t)) eqn:Elt; cbn [negb];
    [apply isin_In in Elt|apply isin_not in Elt].
  2:{ split.
      - intros [= <-]. right. right. split; [assumption|]. split; [assumption|].
        exists t. split; [reflexivity|]. right. right. now repeat split.
      - intros [[H _]|[(_ & H & _)|(_ & _ & t' & [= <-] & H)]];
          [contradiction|contradiction|].
        destruct H as [[H _]|[(_ & H & _)|(_ & _ & _ & ->)]];
          [contradiction|contradiction|reflexivity]. }
  split; [discriminate|].
  intros [[H _]|[(_ & H & _)|(_ & _ & t' & [= <-] & H)]];
    [contradiction|contradiction|].
  destruct H as [[H _]|[(_ & H & _)|(_ & _ & H & _)]]; contradiction.
Qed.
End ConfigurationFacts.

Section Domains.
Variables libm_log libm_exp : float -> float.
Variable days_between : Z -> Z -> Z.

Local Abbreviation run := (preprocess_df libm_log libm_exp days_between).

Lemma filter_true {A : Type} (l : list A) : filter (fun _ => true) l = l.
Proof. induction l as [|a l IH]; cbn; [reflexivity|now rewrite IH]. Qed.

(** X16.  On a chart without an x-domain, [set_xdomain] changes the frame
    that [_preprocess_df] computes only by dropping the rows whose [x] is
    missing or outside the limits: the rows kept are those computed without
    the domain, with the same values in every column, and the call raises in
    the same cases.  Likewise [set_ydomain] on a chart without a y-domain. *)
Theorem domain_setters_only_drop_rows (c : Chart) :
  (forall limits, xdomain (spec (state c)) = None ->
     run (state (set_xdomain limits c))
     = option_map (filter (x_between limits)) (run (state c))) /\
  (forall limits, ydomain (spec (state c)) = None ->
     run (state (set_ydomain limits c))
     = option_map (filter (y_between limits)) (run (state c))).
Proof.
  split; intros [lo hi] Hnone; unfold preprocess_df, set_xdomain, set_ydomain,
    with_spec, aligned; cbn [state df quarantine_df start_criterion
                             ycol_is_cumulative top_k_groups spec];
    destruct (interventions _ _ _ _ _) as [d|]; cbn [option_map]; try reflexivity;
    f_equal; unfold clip.
  - rewrite (filter_ext (in_xdomain (spec (state c))) (fun _ => true))
      by (intros r; unfold in_xdomain; now rewrite Hnone).
    rewrite filter_true.
    rewrite (filter_comm (x_between (lo, hi))). f_equal.
  - rewrite (filter_ext (in_ydomain (spec (state c))) (fun _ => true))
      by (intros r; unfold in_ydomain; now rewrite Hnone).
    rewrite filter_true. reflexivity.
Qed.
End Domains.

(** ** The further properties on sample data *)

Lemma merges_keep_the_rows_witness :
  data_rows (output_rows no_libm no_libm days_between_spec sample_chart)
  = aligned sample_chart.
Proof.
  apply (merges_keep_the_rows no_libm no_libm days_between_spec
           (Some sample_events)).
  vm_compute. reflexivity.
Defined.

Lemma lockdown_columns_of_one_record_witness :
  exists ld ty a,
    In (Event.mk (Some (Joined.group sample_row_A)) (Some ld) (Some ty) false)
       sample_events /\
    In a (aligned sample_chart) /\
    Aligned.group a = Joined.group sample_row_A /\
    Joined.lockdown_date sample_row_A = Some ld /\
    Joined.lockdown_type sample_row_A = Some ty /\
    1%Z = days_between_spec (Aligned.date_of_N a) ld.
Proof.
  apply (lockdown_columns_of_one_record no_libm no_libm days_between_spec
           sample_events (aligned sample_chart)
           (joined_rows no_libm no_libm days_between_spec sample_events
              (aligned sample_chart)));
    [vm_compute; reflexivity|vm_compute; left; reflexivity|reflexivity].
Defined.

Lemma added_columns_constant_on_groups_witness :
  Joined.lockdown_date sample_row_A = Joined.lockdown_date sample_row_A2 /\
  Joined.lockdown_type sample_row_A = Joined.lockdown_type sample_row_A2 /\
  Joined.lockdown_x sample_row_A = Joined.lockdown_x sample_row_A2 /\
  Joined.intercept sample_row_A = Joined.intercept sample_row_A2 /\
  Joined.lockdown_y sample_row_A = Joined.lockdown_y sample_row_A2 /\
  Joined.lockdown_slope sample_row_A = Joined.lockdown_slope sample_row_A2.
Proof.
  apply (added_columns_constant_on_groups no_libm no_libm days_between_spec
           sample_events (aligned sample_chart)
           (joined_rows no_libm no_libm days_between_spec sample_events
              (aligned sample_chart)));
    [vm_compute; reflexivity|vm_compute; left; reflexivity
    |vm_compute; right; right; left; reflexivity|reflexivity].
Defined.

Lemma intercept_is_first_y_at_origin_witness :
  Joined.intercept sample_row_A2
  = match find (fun a => String.eqb (Aligned.group a) (Joined.group sample_row_A2)
                         && (Aligned.x a =? 0)%Z && notna (Aligned.y a))
               (aligned sample_chart) with
    | Some a => Aligned.y a
    | None => nan
    end.
Proof.
  apply (intercept_is_first_y_at_origin no_libm no_libm days_between_spec
           sample_events (aligned sample_chart)
           (joined_rows no_libm no_libm days_between_spec sample_events
              (aligned sample_chart)));
    [vm_compute; reflexivity|vm_compute; right; right; left; reflexivity].
Defined.

Lemma lockdown_y_is_y_at_lockdown_witness :
  match Joined.lockdown_x sample_row_A with
  | None => Joined.lockdown_y sample_row_A = nan
  | Some L =>
      (exists a, In a (aligned sample_chart) /\
                 Aligned.group a = Joined.group sample_row_A /\
                 (Aligned.x a <= L)%Z /\
                 (forall a', In a' (aligned sample_chart) ->
                             Aligned.group a' = Joined.group sample_row_A ->
                             (Aligned.x a' <= L)%Z ->
                             (Aligned.x a' <= Aligned.x a)%Z) /\
                 Joined.lockdown_y sample_row_A = Aligned.y a)
      \/ ((forall a, In a (aligned sample_chart) ->
                     Aligned.group a = Joined.group sample_row_A ->
                     (L < Aligned.x a)%Z) /\
          Joined.lockdown_y sample_row_A = nan)
  end.
Proof.
  apply (lockdown_y_is_y_at_lockdown no_libm no_libm days_between_spec
           sample_events (aligned sample_chart)
           (joined_rows no_libm no_libm days_between_spec sample_events
              (aligned sample_chart)));
    [vm_compute; reflexivity|vm_compute; left; reflexivity].
Defined.

Lemma incomplete_records_are_ignored_witness :
  interventions no_libm no_libm days_between_spec
    (Some (firstn 3 sample_events
           ++ Event.mk (Some "A"%string) (Some 2%Z) None false :: []))
    (aligned sample_chart)
  = interventions no_libm no_libm days_between_spec
      (Some (firstn 3 sample_events ++ [])) (aligned sample_chart).
Proof.
  apply (incomplete_records_are_ignored no_libm no_libm days_between_spec).
  right. right. left. reflexivity.
Defined.

Lemma top_k_keeps_all_when_k_covers_witness :
  select_top_k (Some 2%Z) tie_df = tie_df.
Proof.
  apply (top_k_keeps_all_when_k_covers tie_df 2).
  - intros g Hg. vm_compute in Hg.
    destruct Hg as [<-|[<-|[]]]; reflexivity.
  - vm_compute. discriminate.
Defined.

Lemma top_k_grows_with_k_witness :
  In (Series.mk "a" 1 5 5) (select_top_k (Some 2%Z) tie_df).
Proof.
  apply (top_k_grows_with_k tie_df 1 2); [lia|].
  vm_compute. left. reflexivity.
Defined.

Lemma missing_measure_is_skipped_witness :
  summed_y gap_df 1 = Some nan /\
  summed_y gap_df 2 = summed_y (fill_measures gap_df) 2.
Proof.
  split.
  - apply (proj1 (missing_measure_is_skipped gap_df 1 (Obs.mk "A" 2 nan) eq_refl)).
    reflexivity.
  - apply (proj2 (missing_measure_is_skipped gap_df 2 (Obs.mk "A" 3 7) eq_refl)).
    reflexivity.
Defined.

Lemma first_row_of_group_starts_the_sum_witness :
  nth_error (add_y false sample_df) 1 = Some (Series.mk "B" 1 60 60).
Proof.
  apply (first_row_of_group_starts_the_sum sample_df 1 (Obs.mk "B" 1 60) eq_refl).
  intros j o' Hj. destruct j as [|j]; [|lia].
  cbn. intros [= <-]. discriminate.
Defined.
